(** * rpi-pwrbtn: the power-button supervisor of a single-board host

    A shallow embedding of [rpi-pwrbtn.c], the firmware of a small AVR
    microcontroller that switches the power of a host computer under the
    control of a push button, and the verification of the properties its
    specification states about it.

    The firmware keeps all its state in one global struct [data] and in the
    I/O registers of port B.  Every C function becomes a function from
    machine configurations to machine configurations; the interrupt handler
    takes, in addition, the level of the port B input pins it samples. *)

From Stdlib Require Import ZArith List Bool Lia.
Import ListNotations.
Local Open Scope Z_scope.

(** ** Machine integers *)

(** [uint8_t] and [uint16_t] values are integers; a store to a variable of
    these types keeps the value modulo the width. *)
Definition u8 (z : Z) : Z := z mod 2 ^ 8.
Definition u16 (z : Z) : Z := z mod 2 ^ 16.

(** [_BV(bit)] of avr-libc: [(1 << (bit))]. *)
Definition _BV (bit : Z) : Z := Z.shiftl 1 bit.

(** The C truth value of an integer expression. *)
Definition truthy (z : Z) : bool := negb (z =? 0).

(** ** Constants *)

(** Bit numbers of avr-libc's <avr/io.h>. *)
Definition DDB0 : Z := 0.
Definition DDB1 : Z := 1.
Definition DDB2 : Z := 2.
Definition DDB3 : Z := 3.
Definition DDB4 : Z := 4.
Definition PCIE : Z := 5.
Definition PCINT2 : Z := 2.
Definition PCINT3 : Z := 3.

Definition BTN : Z := DDB2.
Definition LED : Z := DDB1.
Definition RPI_PWR : Z := DDB0.
Definition RPI_IN : Z := DDB3.
Definition RPI_OUT : Z := DDB4.

Definition BOOT_TIMEOUT : Z := 40.
Definition SHUTDOWN_TIMEOUT : Z := 40.

Definition BOOT_TICK : Z := 200.
Definition SHUTDOWN_TICK : Z := 500.
Definition BORK_TICK : Z := 10.
Definition SECOND : Z := 1000.

(** ** The configuration of the machine *)

Inductive state_t : Type :=
| unknown_state
| boot_state
| idle_state
| shutdown_state
| poweroff_state.

Definition state_eqb (a b : state_t) : bool :=
  match a, b with
  | unknown_state, unknown_state
  | boot_state, boot_state
  | idle_state, idle_state
  | shutdown_state, shutdown_state
  | poweroff_state, poweroff_state => true
  | _, _ => false
  end.

(** The global struct [data]. *)
Record data_t : Type := mk_data {
  state : state_t;
  timer : Z;      (* uint16_t, milliseconds below the running second *)
  seconds : Z;    (* uint8_t, whole seconds since the state was entered *)
  pinb : Z        (* uint8_t, the last sample of PINB *)
}.

(** The struct together with the I/O registers the program writes.  The
    status register, MCUCR and PRR (touched by [cli], [sei],
    [set_sleep_mode] and [power_adc_disable]) carry nothing the functions
    below read, and are left out. *)
Record mcu : Type := mk_mcu {
  data : data_t;
  DDRB : Z;
  PORTB : Z;
  GIMSK : Z;
  PCMSK : Z
}.

Definition set_state (s : state_t) (m : mcu) : mcu :=
  mk_mcu (mk_data s (timer (data m)) (seconds (data m)) (pinb (data m)))
         (DDRB m) (PORTB m) (GIMSK m) (PCMSK m).

Definition set_timer (t : Z) (m : mcu) : mcu :=
  mk_mcu (mk_data (state (data m)) t (seconds (data m)) (pinb (data m)))
         (DDRB m) (PORTB m) (GIMSK m) (PCMSK m).

Definition set_seconds (s : Z) (m : mcu) : mcu :=
  mk_mcu (mk_data (state (data m)) (timer (data m)) s (pinb (data m)))
         (DDRB m) (PORTB m) (GIMSK m) (PCMSK m).

Definition set_pinb (p : Z) (m : mcu) : mcu :=
  mk_mcu (mk_data (state (data m)) (timer (data m)) (seconds (data m)) p)
         (DDRB m) (PORTB m) (GIMSK m) (PCMSK m).

Definition set_DDRB (v : Z) (m : mcu) : mcu :=
  mk_mcu (data m) v (PORTB m) (GIMSK m) (PCMSK m).

Definition set_PORTB (v : Z) (m : mcu) : mcu :=
  mk_mcu (data m) (DDRB m) v (GIMSK m) (PCMSK m).

Definition set_GIMSK (v : Z) (m : mcu) : mcu :=
  mk_mcu (data m) (DDRB m) (PORTB m) v (PCMSK m).

Definition set_PCMSK (v : Z) (m : mcu) : mcu :=
  mk_mcu (data m) (DDRB m) (PORTB m) (GIMSK m) v.

(** Statements in sequence: [m ;> f ;> g] runs [f], then [g]. *)
Notation "m ;> f" := (f m) (at level 50, left associativity, only parsing).

(** ** The macros of common/defs.h *)

(** Modelled from the spec: the header common/defs.h, which defines the
    macros [HIGH], [LOW], [TOGGLE], [OUT], [IN] and [DELAY], is not among the
    sources.  The specification reads [LOW(PORTB, LED)] as "LED off",
    [HIGH(PORTB, LED)] as "LED steady on" and [TOGGLE(PORTB, LED)] as "toggle
    LED": the macros drive one bit of an 8-bit register high, low, or to the
    opposite level, and leave the other bits alone. *)
Definition bit_high (reg pin : Z) : Z := u8 (Z.lor reg (_BV pin)).
Definition bit_low (reg pin : Z) : Z := u8 (Z.land reg (Z.lnot (_BV pin))).
Definition bit_toggle (reg pin : Z) : Z := u8 (Z.lxor reg (_BV pin)).

(** Modelled from the spec: [HIGH(PORTB, pin)], [LOW(PORTB, pin)] and
    [TOGGLE(PORTB, pin)] of the missing common/defs.h, on the output
    register. *)
Definition HIGH_PORTB (pin : Z) (m : mcu) : mcu :=
  set_PORTB (bit_high (PORTB m) pin) m.
Definition LOW_PORTB (pin : Z) (m : mcu) : mcu :=
  set_PORTB (bit_low (PORTB m) pin) m.
Definition TOGGLE_PORTB (pin : Z) (m : mcu) : mcu :=
  set_PORTB (bit_toggle (PORTB m) pin) m.

(** Modelled from the spec: [OUT(DDRB, pin)] and [IN(DDRB, pin)] of the
    missing common/defs.h make a pin an output (direction bit high) or an
    input (direction bit low). *)
Definition OUT_DDRB (pin : Z) (m : mcu) : mcu :=
  set_DDRB (bit_high (DDRB m) pin) m.
Definition IN_DDRB (pin : Z) (m : mcu) : mcu :=
  set_DDRB (bit_low (DDRB m) pin) m.

(** Modelled from the spec: [DELAY(msecs)] of the missing common/defs.h is
    the blocking delay primitive; it lets time pass and changes nothing in
    the configuration. *)
Definition DELAY (msecs : Z) (m : mcu) : mcu := m.

(** avr-libc primitives whose effect is outside the configuration. *)
Definition cli (m : mcu) : mcu := m.
Definition sei (m : mcu) : mcu := m.
Definition power_adc_disable (m : mcu) : mcu := m.
Definition set_sleep_mode_PWR_DOWN (m : mcu) : mcu := m.
(** [sleep_mode()] returns once an interrupt has been served; the interrupt
    itself is a step of its own (see [step] below). *)
Definition sleep_mode (m : mcu) : mcu := m.

#[local] Arguments u8 : simpl never.
#[local] Arguments u16 : simpl never.
#[local] Arguments bit_high : simpl never.
#[local] Arguments bit_low : simpl never.
#[local] Arguments bit_toggle : simpl never.

(** ** The levels of the three output lines *)

(** The LED is lit while its pin is high. *)
Definition led_on (m : mcu) : bool := Z.testbit (PORTB m) LED.
(** The host's supply is enabled while RPI_PWR is low: entering
    [boot_state] drives it low, entering [poweroff_state] drives it high. *)
Definition power_enabled (m : mcu) : bool := negb (Z.testbit (PORTB m) RPI_PWR).
(** The host is asked to shut down while RPI_OUT is high. *)
Definition shutdown_signal (m : mcu) : bool := Z.testbit (PORTB m) RPI_OUT.

(** ** The program *)

Definition state_change (new_state : state_t) (m : mcu) : mcu :=
  let m := set_state new_state m in
  match state (data m) with
  | boot_state =>
      m ;> LOW_PORTB LED
        ;> LOW_PORTB RPI_PWR
        ;> LOW_PORTB RPI_OUT
        ;> set_timer 0
        ;> set_seconds 0
  | shutdown_state =>
      m ;> HIGH_PORTB RPI_OUT
        ;> LOW_PORTB LED
        ;> set_timer 0
        ;> set_seconds 0
  | poweroff_state =>
      m ;> HIGH_PORTB RPI_PWR
        ;> LOW_PORTB LED
        ;> LOW_PORTB RPI_OUT
  | idle_state =>
      m ;> HIGH_PORTB LED
  | unknown_state => m
  end.

Definition delay (msecs : Z) (m : mcu) : mcu :=
  match state (data m) with
  | boot_state | shutdown_state =>
      let m := DELAY msecs m in
      let m := set_timer (u16 (timer (data m) + msecs)) m in
      if SECOND <=? timer (data m) then
        m ;> set_seconds (u8 (seconds (data m) + 1))
          ;> set_timer (u16 (timer (data m) - SECOND))
      else m
  | idle_state | poweroff_state | unknown_state => DELAY msecs m
  end.

Definition boot_tick (m : mcu) : mcu :=
  let m := m ;> TOGGLE_PORTB LED ;> delay BOOT_TICK in
  if BOOT_TIMEOUT <=? seconds (data m) then state_change idle_state m else m.

Definition shutdown_tick (m : mcu) : mcu :=
  let m := m ;> TOGGLE_PORTB LED ;> delay SHUTDOWN_TICK in
  if SHUTDOWN_TIMEOUT <=? seconds (data m)
  then state_change poweroff_state m else m.

Definition bork_tick (m : mcu) : mcu :=
  m ;> TOGGLE_PORTB LED
    ;> DELAY BORK_TICK
    ;> TOGGLE_PORTB LED
    ;> DELAY (BORK_TICK * 2).

(** [setup], up to and including [sei()].  [PINB] is the level of the port B
    pins at the time [data.pinb] is initialised. *)
Definition setup_init (PINB : Z) (m : mcu) : mcu :=
  m ;> cli
    ;> set_DDRB 0
    ;> set_PORTB 0
    ;> OUT_DDRB LED ;> LOW_PORTB LED
    ;> IN_DDRB BTN ;> LOW_PORTB BTN
    ;> OUT_DDRB RPI_PWR ;> HIGH_PORTB RPI_PWR
    ;> OUT_DDRB RPI_OUT ;> LOW_PORTB RPI_OUT
    ;> IN_DDRB RPI_IN ;> LOW_PORTB RPI_IN
    ;> (fun m => set_GIMSK (u8 (Z.lor (GIMSK m) (_BV PCIE))) m)
    ;> (fun m => set_PCMSK
                   (u8 (Z.lor (PCMSK m) (Z.lor (_BV PCINT2) (_BV PCINT3)))) m)
    ;> power_adc_disable
    ;> set_sleep_mode_PWR_DOWN
    ;> set_state unknown_state
    ;> set_timer 0
    ;> set_seconds 0
    ;> set_pinb PINB
    ;> sei.

Definition setup (PINB : Z) (m : mcu) : mcu :=
  m ;> setup_init PINB ;> state_change poweroff_state.

Definition loop (m : mcu) : mcu :=
  match state (data m) with
  | boot_state => boot_tick m
  | shutdown_state => shutdown_tick m
  | idle_state | poweroff_state => sleep_mode m
  | unknown_state => bork_tick m
  end.

(** The test [pin_change & _BV(pin) && PINB & _BV(pin)] of the handler. *)
Definition rose (pin_change PINB pin : Z) : bool :=
  truthy (Z.land pin_change (_BV pin)) && truthy (Z.land PINB (_BV pin)).

(** The body of the first [switch] of the handler. *)
Definition rpi_in_rose (m : mcu) : mcu :=
  match state (data m) with
  | boot_state => set_seconds BOOT_TIMEOUT m
  | idle_state | poweroff_state | shutdown_state | unknown_state => m
  end.

(** The body of the second [switch] of the handler. *)
Definition btn_rose (m : mcu) : mcu :=
  match state (data m) with
  | idle_state => state_change shutdown_state m
  | poweroff_state => state_change boot_state m
  | boot_state | shutdown_state | unknown_state => m
  end.

(** [ISR(PCINT0_vect)].  The handler runs with interrupts disabled; [PINB]
    is the level of the port B pins while it runs. *)
Definition ISR (PINB : Z) (m : mcu) : mcu :=
  let pin_change := u8 (Z.lxor PINB (pinb (data m))) in
  let m := set_pinb PINB m in
  let m := if rose pin_change PINB RPI_IN then rpi_in_rose m else m in
  if rose pin_change PINB BTN then btn_rose m else m.

(** ** Executions *)

(** The main line calls [loop] for ever and the pin-change interrupt lands
    between two of its iterations: an execution is a sequence of ticks and
    of interrupts, each interrupt with the pin levels its handler sees. *)
Inductive event : Type :=
| Tick
| Interrupt (PINB : Z).

Definition step (m : mcu) (e : event) : mcu :=
  match e with
  | Tick => loop m
  | Interrupt PINB => ISR PINB m
  end.

Definition run (m : mcu) (evs : list event) : mcu := fold_left step evs m.

(** [n] iterations of the main loop without an interrupt. *)
Definition ticks (n : nat) (m : mcu) : mcu := Nat.iter n loop m.

(** The number of iterations, among the next [n], that change the state. *)
Fixpoint transitions (n : nat) (m : mcu) : nat :=
  match n with
  | O => O
  | S n' =>
      ((if state_eqb (state (data (loop m))) (state (data m)) then 0 else 1)
       + transitions n' (loop m))%nat
  end.

(** A rising edge of an input line, as the handler sees it: the line differs
    from the previous sample and is now high. *)
Definition rising_edge (pin PINB : Z) (m : mcu) : bool :=
  Z.testbit (Z.lxor PINB (pinb (data m))) pin && Z.testbit PINB pin.

(** The timed states, whose ticks run the clock. *)
Definition timed (s : state_t) : bool :=
  match s with
  | boot_state | shutdown_state => true
  | _ => false
  end.

(** A power-on configuration, for the examples: every register cleared. *)
Definition mcu0 : mcu := mk_mcu (mk_data unknown_state 0 0 0) 0 0 0 0.

(** ** Vocabulary of the statements *)

(** The pins of port B in the list keep their level from [m] to [m']. *)
Definition pins_kept (l : list Z) (m m' : mcu) : Prop :=
  Forall (fun i => Z.testbit (PORTB m') i = Z.testbit (PORTB m) i) l.

(** The clock is left as it was. *)
Definition clock_kept (m m' : mcu) : Prop :=
  timer (data m') = timer (data m) /\ seconds (data m') = seconds (data m).

(** The clock is back at zero. *)
Definition clock_zero (m : mcu) : Prop :=
  timer (data m) = 0 /\ seconds (data m) = 0.

(** The entry action of each state, line by line. *)
Definition entry_action (s : state_t) (m m' : mcu) : Prop :=
  match s with
  | boot_state =>
      led_on m' = false /\ power_enabled m' = true
      /\ shutdown_signal m' = false
      /\ pins_kept [BTN; RPI_IN; 5; 6; 7] m m' /\ clock_zero m'
  | shutdown_state =>
      shutdown_signal m' = true /\ led_on m' = false
      /\ pins_kept [RPI_PWR; BTN; RPI_IN; 5; 6; 7] m m' /\ clock_zero m'
  | poweroff_state =>
      power_enabled m' = false /\ led_on m' = false
      /\ shutdown_signal m' = false
      /\ pins_kept [BTN; RPI_IN; 5; 6; 7] m m' /\ clock_kept m m'
  | idle_state =>
      led_on m' = true
      /\ pins_kept [RPI_PWR; BTN; RPI_IN; RPI_OUT; 5; 6; 7] m m'
      /\ clock_kept m m'
  | unknown_state =>
      PORTB m' = PORTB m /\ clock_kept m m'
  end.

(** The clock in milliseconds. *)
Definition elapsed_ms (m : mcu) : Z :=
  SECOND * seconds (data m) + timer (data m).

(** What one call of [delay] is to do to the clock, in exact arithmetic:
    in a timed state the duration is added to [timer] and, when the sum
    reaches [SECOND], one second is carried; elsewhere the clock stands. *)
Definition delay_carry (msecs : Z) (m m' : mcu) : Prop :=
  if timed (state (data m)) then
    if SECOND <=? timer (data m) + msecs then
      timer (data m') = timer (data m) + msecs - SECOND
      /\ seconds (data m') = seconds (data m) + 1
    else
      timer (data m') = timer (data m) + msecs
      /\ seconds (data m') = seconds (data m)
  else clock_kept m m'.

(** The configuration after power-on, with no button pressed. *)
Definition powered_off : mcu := setup 0 mcu0.
(** The button has just been pressed: a fresh entry into [boot_state]. *)
Definition booting : mcu := ISR (_BV BTN) powered_off.
(** Nineteen boot ticks later: 3.8 s on the clock. *)
Definition booting19 : mcu := ticks 19 booting.
(** A shutdown with the seconds counter at the top of its range. *)
Definition shutdown255 : mcu :=
  set_seconds 255 (set_timer 800 (state_change shutdown_state powered_off)).

(** [setup] with interrupts landing between [sei()] and the call of
    [state_change]: one handler run per sample of the pins in [irqs]. *)
Definition setup_interrupted (PINB : Z) (irqs : list Z) (m : mcu) : mcu :=
  m ;> setup_init PINB
    ;> (fun m => run m (map Interrupt irqs))
    ;> state_change poweroff_state.

(** The levels of the output lines that go with a state: the host's supply
    is enabled from the entry into [boot_state] to the entry into
    [poweroff_state], the shutdown line is raised in [shutdown_state] only,
    and the LED is steady in [idle_state] (on) and [poweroff_state] (off);
    in the two timed states the LED blinks and is not constrained. *)
Definition lines_match (s : state_t) (portb : Z) : bool :=
  let pwr := negb (Z.testbit portb RPI_PWR) in
  let out := Z.testbit portb RPI_OUT in
  let led := Z.testbit portb LED in
  match s with
  | unknown_state => false
  | boot_state => pwr && negb out
  | idle_state => pwr && negb out && led
  | shutdown_state => pwr && out
  | poweroff_state => negb pwr && negb out && negb led
  end.

Definition lines_match_state (m : mcu) : bool :=
  lines_match (state (data m)) (PORTB m).

(** One power cycle: the button is pressed, the boot runs to its timeout,
    the button is released and pressed again, the shutdown runs to its
    timeout. *)
Definition power_cycle (press1 release press2 : Z) : list event :=
  Interrupt press1 :: repeat Tick 200
  ++ Interrupt release :: Interrupt press2 :: repeat Tick 80.

(** ** Interrupts inside a tick *)

(** The main line statement by statement, so that an interrupt can land
    between any two statements of a tick.  A program is what is left to
    run: [Do f k] runs the statement [f] and goes on with [k]; [Test c kt
    kf] evaluates the condition of an [if] and [Switch k] reads
    [data.state] for a [switch], each on the memory of that instant; [Ret]
    returns from [loop].  The functions below are the C functions once
    more, in this form, with the statements that follow the call as [k]. *)
Inductive prog : Type :=
| Ret
| Do (f : mcu -> mcu) (k : prog)
| Test (c : mcu -> bool) (kt kf : prog)
| Switch (k : state_t -> prog).

Definition state_change_p (new_state : state_t) (k : prog) : prog :=
  Do (set_state new_state)
    (Switch (fun s =>
       match s with
       | boot_state =>
           Do (LOW_PORTB LED) (Do (LOW_PORTB RPI_PWR) (Do (LOW_PORTB RPI_OUT)
             (Do (set_timer 0) (Do (set_seconds 0) k))))
       | shutdown_state =>
           Do (HIGH_PORTB RPI_OUT) (Do (LOW_PORTB LED)
             (Do (set_timer 0) (Do (set_seconds 0) k)))
       | poweroff_state =>
           Do (HIGH_PORTB RPI_PWR) (Do (LOW_PORTB LED)
             (Do (LOW_PORTB RPI_OUT) k))
       | idle_state => Do (HIGH_PORTB LED) k
       | unknown_state => k
       end)).

Definition delay_p (msecs : Z) (k : prog) : prog :=
  Switch (fun s =>
    match s with
    | boot_state | shutdown_state =>
        Do (DELAY msecs)
          (Do (fun m => set_timer (u16 (timer (data m) + msecs)) m)
             (Test (fun m => SECOND <=? timer (data m))
                (Do (fun m => set_seconds (u8 (seconds (data m) + 1)) m)
                   (Do (fun m => set_timer (u16 (timer (data m) - SECOND)) m)
                      k))
                k))
    | idle_state | poweroff_state | unknown_state => Do (DELAY msecs) k
    end).

Definition boot_tick_p (k : prog) : prog :=
  Do (TOGGLE_PORTB LED)
    (delay_p BOOT_TICK
       (Test (fun m => BOOT_TIMEOUT <=? seconds (data m))
          (state_change_p idle_state k) k)).

Definition shutdown_tick_p (k : prog) : prog :=
  Do (TOGGLE_PORTB LED)
    (delay_p SHUTDOWN_TICK
       (Test (fun m => SHUTDOWN_TIMEOUT <=? seconds (data m))
          (state_change_p poweroff_state k) k)).

Definition bork_tick_p (k : prog) : prog :=
  Do (TOGGLE_PORTB LED) (Do (DELAY BORK_TICK)
    (Do (TOGGLE_PORTB LED) (Do (DELAY (BORK_TICK * 2)) k))).

Definition loop_p : prog :=
  Switch (fun s =>
    match s with
    | boot_state => boot_tick_p Ret
    | shutdown_state => shutdown_tick_p Ret
    | idle_state | poweroff_state => Do sleep_mode Ret
    | unknown_state => bork_tick_p Ret
    end).

(** A program run to its [Ret] without an interrupt. *)
Fixpoint finish (p : prog) (m : mcu) : mcu :=
  match p with
  | Ret => m
  | Do f k => finish k (f m)
  | Test c kt kf => if c m then finish kt m else finish kf m
  | Switch k => finish (k (state (data m))) m
  end.

(** One statement of the main line; after [Ret], [loop] is called again. *)
Definition main_step (c : mcu * prog) : mcu * prog :=
  match snd c with
  | Ret => (fst c, loop_p)
  | Do f k => (f (fst c), k)
  | Test t kt kf => (fst c, if t (fst c) then kt else kf)
  | Switch k => (fst c, k (state (data (fst c))))
  end.

(** The main line advances by one statement, or the handler runs, whole:
    it runs with interrupts disabled. *)
Inductive pevent : Type :=
| Main
| Irq (PINB : Z).

Definition pstep (c : mcu * prog) (e : pevent) : mcu * prog :=
  match e with
  | Main => main_step c
  | Irq PINB => (ISR PINB (fst c), snd c)
  end.

Definition prun (c : mcu * prog) (evs : list pevent) : mcu * prog :=
  fold_left pstep evs c.

(** No statement left to run moves the machine into [unknown_state]. *)
Fixpoint keeps_known (p : prog) : Prop :=
  match p with
  | Ret => True
  | Do f k =>
      (forall m, state (data m) <> unknown_state ->
                 state (data (f m)) <> unknown_state)
      /\ keeps_known k
  | Test _ kt kf => keeps_known kt /\ keeps_known kf
  | Switch k => forall s, keeps_known (k s)
  end.

(** ** Vocabulary of the further properties *)

(** The number of ticks of an execution. *)
Fixpoint count_ticks (evs : list event) : nat :=
  match evs with
  | [] => O
  | Tick :: evs' => S (count_ticks evs')
  | Interrupt _ :: evs' => count_ticks evs'
  end.

(** The machine is in state [s] after every event of the execution. *)
Fixpoint stays (s : state_t) (m : mcu) (evs : list event) : bool :=
  match evs with
  | [] => true
  | e :: evs' =>
      state_eqb (state (data (step m e))) s && stays s (step m e) evs'
  end.

(** No handler of the execution sees a rising edge of the host-ready
    line. *)
Fixpoint host_silent (m : mcu) (evs : list event) : bool :=
  match evs with
  | [] => true
  | e :: evs' =>
      match e with
      | Tick => true
      | Interrupt PINB => negb (rising_edge RPI_IN PINB m)
      end && host_silent (step m e) evs'
  end.

(** The pins as the last handler of the execution saw them; [d] when no
    handler ran. *)
Fixpoint last_sample (evs : list event) (d : Z) : Z :=
  match evs with
  | [] => d
  | Tick :: evs' => last_sample evs' d
  | Interrupt PINB :: evs' => last_sample evs' PINB
  end.

(** The state that follows a state in the power cycle. *)
Definition successor (s : state_t) : state_t :=
  match s with
  | poweroff_state => boot_state
  | boot_state => idle_state
  | idle_state => shutdown_state
  | shutdown_state => poweroff_state
  | unknown_state => unknown_state
  end.

(** The clock within the bounds the program keeps it in: less than a second
    in [timer]; at most 41 in [seconds], at most 40 while booting and less
    than 40 while shutting down. *)
Definition clock_in_range (m : mcu) : Prop :=
  0 <= timer (data m) < SECOND
  /\ 0 <= seconds (data m) <= BOOT_TIMEOUT + 1
  /\ match state (data m) with
     | boot_state => seconds (data m) <= BOOT_TIMEOUT
     | shutdown_state => seconds (data m) < SHUTDOWN_TIMEOUT
     | _ => True
     end.

(** Only the three output pins of port B are high, if any. *)
Definition outputs_only (portb : Z) : Prop :=
  forall i, Z.testbit portb i = true -> i = RPI_PWR \/ i = LED \/ i = RPI_OUT.
(** * Bits of a register *)

Lemma testbit_BV (pin i : Z) :
  0 <= pin -> Z.testbit (_BV pin) i = (pin =? i).
Proof.
  intros Hp. unfold _BV. rewrite Z.shiftl_1_l. now apply Z.pow2_bits_eqb.
Qed.

Lemma testbit_u8 (z i : Z) :
  0 <= i < 8 -> Z.testbit (u8 z) i = Z.testbit z i.
Proof.
  intros Hi. unfold u8. apply Z.mod_pow2_bits_low. lia.
Qed.

Lemma testbit_bit_high (reg pin i : Z) :
  0 <= pin -> 0 <= i < 8 ->
  Z.testbit (bit_high reg pin) i = Z.testbit reg i || (pin =? i).
Proof.
  intros Hp Hi. unfold bit_high.
  now rewrite testbit_u8, Z.lor_spec, testbit_BV.
Qed.

Lemma testbit_bit_low (reg pin i : Z) :
  0 <= pin -> 0 <= i < 8 ->
  Z.testbit (bit_low reg pin) i = Z.testbit reg i && negb (pin =? i).
Proof.
  intros Hp Hi. unfold bit_low.
  rewrite testbit_u8, Z.land_spec, Z.lnot_spec, testbit_BV by lia.
  reflexivity.
Qed.

Lemma testbit_bit_toggle (reg pin i : Z) :
  0 <= pin -> 0 <= i < 8 ->
  Z.testbit (bit_toggle reg pin) i = xorb (Z.testbit reg i) (pin =? i).
Proof.
  intros Hp Hi. unfold bit_toggle.
  now rewrite testbit_u8, Z.lxor_spec, testbit_BV.
Qed.

(** The masking test of C, [x & _BV(pin)], is the test of one bit. *)
Lemma truthy_land_BV (x pin : Z) :
  0 <= pin -> truthy (Z.land x (_BV pin)) = Z.testbit x pin.
Proof.
  intros Hp. unfold truthy.
  destruct (Z.testbit x pin) eqn:Hb.
  - apply negb_true_iff, Z.eqb_neq. intros H0.
    assert (Hc : Z.testbit (Z.land x (_BV pin)) pin = true).
    { rewrite Z.land_spec, Hb, testbit_BV, Z.eqb_refl by lia. reflexivity. }
    rewrite H0, Z.bits_0 in Hc. discriminate.
  - apply negb_false_iff, Z.eqb_eq. apply Z.bits_inj'. intros i Hi.
    rewrite Z.land_spec, testbit_BV, Z.bits_0 by lia.
    destruct (Z.eqb_spec pin i) as [->|]; [now rewrite Hb|].
    apply andb_false_r.
Qed.

Lemma rose_rising_edge (pin PINB : Z) (m : mcu) :
  0 <= pin < 8 ->
  rose (u8 (Z.lxor PINB (pinb (data m)))) PINB pin = rising_edge pin PINB m.
Proof.
  intros Hp. unfold rose, rising_edge.
  now rewrite !truthy_land_BV, testbit_u8 by lia.
Qed.

(** A rising edge is a 0 -> 1 transition between two samples. *)
Lemma rising_edge_levels (pin PINB : Z) (m : mcu) :
  rising_edge pin PINB m
  = negb (Z.testbit (pinb (data m)) pin) && Z.testbit PINB pin.
Proof.
  unfold rising_edge. rewrite Z.lxor_spec.
  now destruct (Z.testbit PINB pin), (Z.testbit (pinb (data m)) pin).
Qed.

Create Rewrite HintDb pins.
#[local] Hint Rewrite testbit_bit_high testbit_bit_low testbit_bit_toggle
  using (unfold LED, RPI_PWR, RPI_OUT, BTN, RPI_IN,
           DDB0, DDB1, DDB2, DDB3, DDB4; lia) : pins.

(** Reads the level of a pin off a chain of register writes. *)
Ltac pin_levels :=
  unfold led_on, power_enabled, shutdown_signal; cbn [PORTB set_PORTB
    HIGH_PORTB LOW_PORTB TOGGLE_PORTB set_state set_timer set_seconds set_pinb
    data state timer seconds pinb DDRB GIMSK PCMSK];
  autorewrite with pins;
  cbn [LED RPI_PWR RPI_OUT BTN RPI_IN DDB0 DDB1 DDB2 DDB3 DDB4 Z.eqb
       Pos.eqb negb andb orb xorb];
  rewrite ?andb_true_r, ?andb_false_r, ?orb_false_r, ?orb_true_r,
    ?xorb_false_r.

(** * The state machine controller: [state_change] *)

Lemma state_change_state (s : state_t) (m : mcu) :
  state (data (state_change s m)) = s.
Proof. now destruct s. Qed.

Lemma state_change_frame (s : state_t) (m : mcu) :
  pinb (data (state_change s m)) = pinb (data m)
  /\ DDRB (state_change s m) = DDRB m
  /\ GIMSK (state_change s m) = GIMSK m
  /\ PCMSK (state_change s m) = PCMSK m.
Proof. now destruct s. Qed.

Lemma state_change_entry_action (s : state_t) (m : mcu) :
  entry_action s m (state_change s m).
Proof.
  destruct s; unfold entry_action, state_change, pins_kept, clock_zero,
    clock_kept; cbn [set_state data state];
    repeat match goal with
      | |- _ /\ _ => split
      | |- Forall _ _ => constructor
      end;
    try reflexivity; pin_levels; reflexivity.
Qed.

(** The bits of an 8-bit register settle its value. *)
Lemma u8_testbit_ext (a b : Z) :
  (forall i, 0 <= i < 8 -> Z.testbit a i = Z.testbit b i) -> u8 a = u8 b.
Proof.
  intros H. apply Z.bits_inj'. intros i Hi. unfold u8.
  destruct (Z.ltb_spec i 8).
  - rewrite !Z.mod_pow2_bits_low by lia. apply H. lia.
  - now rewrite !Z.mod_pow2_bits_high by lia.
Qed.

Lemma u8_idem (z : Z) : u8 (u8 z) = u8 z.
Proof. unfold u8. apply Z.mod_mod. lia. Qed.

(** Two 8-bit values with the same eight bits are equal. *)
Lemma reg_ext (a b : Z) :
  u8 a = a -> u8 b = b ->
  (forall i, 0 <= i < 8 -> Z.testbit a i = Z.testbit b i) -> a = b.
Proof.
  intros Ha Hb H. rewrite <- Ha, <- Hb. now apply u8_testbit_ext.
Qed.

Lemma u8_bit_low (reg pin : Z) : u8 (bit_low reg pin) = bit_low reg pin.
Proof. apply u8_idem. Qed.

Lemma u8_bit_high (reg pin : Z) : u8 (bit_high reg pin) = bit_high reg pin.
Proof. apply u8_idem. Qed.

Lemma u8_bit_toggle (reg pin : Z) :
  u8 (bit_toggle reg pin) = bit_toggle reg pin.
Proof. apply u8_idem. Qed.

(** Settles an equation between two chains of writes to an 8-bit register,
    bit by bit. *)
Ltac reg_eq :=
  apply reg_ext;
  [ first [apply u8_bit_low | apply u8_bit_high | apply u8_bit_toggle]
  | first [apply u8_bit_low | apply u8_bit_high | apply u8_bit_toggle]
  | let i := fresh "i" in
    let Hi := fresh "Hi" in
    intros i Hi; autorewrite with pins; try assumption;
    repeat match goal with
      | |- context [?c =? i] => destruct (c =? i)
      end;
    repeat match goal with
      | |- context [Z.testbit ?r i] => destruct (Z.testbit r i)
      end;
    reflexivity ].

(** [state_change], one record per target state. *)
Lemma state_change_eq (s : state_t) (m : mcu) :
  state_change s m =
  match s with
  | boot_state =>
      mk_mcu (mk_data s 0 0 (pinb (data m))) (DDRB m)
        (bit_low (bit_low (bit_low (PORTB m) LED) RPI_PWR) RPI_OUT)
        (GIMSK m) (PCMSK m)
  | shutdown_state =>
      mk_mcu (mk_data s 0 0 (pinb (data m))) (DDRB m)
        (bit_low (bit_high (PORTB m) RPI_OUT) LED) (GIMSK m) (PCMSK m)
  | poweroff_state =>
      mk_mcu (mk_data s (timer (data m)) (seconds (data m)) (pinb (data m)))
        (DDRB m)
        (bit_low (bit_low (bit_high (PORTB m) RPI_PWR) LED) RPI_OUT)
        (GIMSK m) (PCMSK m)
  | idle_state =>
      mk_mcu (mk_data s (timer (data m)) (seconds (data m)) (pinb (data m)))
        (DDRB m) (bit_high (PORTB m) LED) (GIMSK m) (PCMSK m)
  | unknown_state =>
      mk_mcu (mk_data s (timer (data m)) (seconds (data m)) (pinb (data m)))
        (DDRB m) (PORTB m) (GIMSK m) (PCMSK m)
  end.
Proof. destruct s; reflexivity. Qed.

Lemma state_change_idem (s : state_t) (m : mcu) :
  state_change s (state_change s m) = state_change s m.
Proof.
  rewrite !state_change_eq.
  destruct s; cbn [data state timer seconds pinb DDRB PORTB GIMSK PCMSK];
    f_equal; try reg_eq.
Qed.

(** C1.  Whatever the configuration, [state_change new_state] makes
    [new_state] the current state and runs the entry action of that state
    and nothing else: entering [boot_state] switches the LED off, enables
    the host's supply, releases the shutdown line and zeroes the clock;
    entering [shutdown_state] raises the shutdown line, switches the LED
    off and zeroes the clock; entering [poweroff_state] disables the
    supply, switches the LED off, releases the shutdown line and leaves the
    clock alone; entering [idle_state] lights the LED; entering
    [unknown_state] does nothing.  Every other pin of the port, the pin
    snapshot and the other registers are untouched.  Entering the state the
    machine is already in runs the entry action again (the configuration is
    arbitrary), and doing so twice in a row is the same as doing it once. *)
Theorem state_change_contract (new_state : state_t) (m : mcu) :
  state (data (state_change new_state m)) = new_state
  /\ entry_action new_state m (state_change new_state m)
  /\ pinb (data (state_change new_state m)) = pinb (data m)
  /\ DDRB (state_change new_state m) = DDRB m
  /\ GIMSK (state_change new_state m) = GIMSK m
  /\ PCMSK (state_change new_state m) = PCMSK m
  /\ entry_action new_state (state_change new_state m)
       (state_change new_state (state_change new_state m))
  /\ state_change new_state (state_change new_state m)
     = state_change new_state m.
Proof.
  split; [apply state_change_state|].
  split; [apply state_change_entry_action|].
  pose proof (state_change_frame new_state m) as (Hp & Hd & Hg & Hm).
  repeat (split; [assumption|]).
  split; [apply state_change_entry_action|apply state_change_idem].
Qed.

(** * The timing accumulator: [delay] *)

(** [delay] outside the timed states. *)
Lemma delay_untimed (msecs : Z) (m : mcu) :
  timed (state (data m)) = false -> delay msecs m = m.
Proof.
  unfold delay, DELAY. now destruct (state (data m)).
Qed.

(** [delay] in a timed state, in the arithmetic of the machine. *)
Lemma delay_timed (msecs : Z) (m : mcu) :
  timed (state (data m)) = true ->
  delay msecs m =
  let t := u16 (timer (data m) + msecs) in
  if SECOND <=? t
  then mk_mcu (mk_data (state (data m)) (u16 (t - SECOND))
                 (u8 (seconds (data m) + 1)) (pinb (data m)))
         (DDRB m) (PORTB m) (GIMSK m) (PCMSK m)
  else mk_mcu (mk_data (state (data m)) t (seconds (data m)) (pinb (data m)))
         (DDRB m) (PORTB m) (GIMSK m) (PCMSK m).
Proof.
  destruct m as [[s t sec p] ddrb portb gimsk pcmsk].
  cbn [data state timer seconds pinb DDRB PORTB GIMSK PCMSK].
  intros Ht. unfold delay, DELAY.
  destruct s; try discriminate Ht;
    cbn [data state timer seconds pinb set_timer DDRB PORTB GIMSK PCMSK];
    destruct (SECOND <=? u16 (t + msecs)); reflexivity.
Qed.

(** [delay] touches the clock and nothing else. *)
Lemma delay_frame (msecs : Z) (m : mcu) :
  state (data (delay msecs m)) = state (data m)
  /\ pinb (data (delay msecs m)) = pinb (data m)
  /\ PORTB (delay msecs m) = PORTB m
  /\ DDRB (delay msecs m) = DDRB m
  /\ GIMSK (delay msecs m) = GIMSK m
  /\ PCMSK (delay msecs m) = PCMSK m.
Proof.
  destruct (timed (state (data m))) eqn:Ht.
  - rewrite delay_timed by assumption. cbv zeta.
    now destruct (SECOND <=? _).
  - now rewrite delay_untimed.
Qed.

Lemma u16_small (z : Z) : 0 <= z < 65536 -> u16 z = z.
Proof. intros H. unfold u16. apply Z.mod_small. lia. Qed.

Lemma u8_small (z : Z) : 0 <= z < 256 -> u8 z = z.
Proof. intros H. unfold u8. apply Z.mod_small. lia. Qed.

(** Within the range of the counters the arithmetic of [delay] is exact. *)
Lemma delay_exact (msecs : Z) (m : mcu) :
  timed (state (data m)) = true ->
  0 <= timer (data m) + msecs < 65536 ->
  0 <= seconds (data m) < 255 ->
  delay_carry msecs m (delay msecs m).
Proof.
  intros Ht Hsum Hsec. unfold delay_carry. rewrite Ht.
  rewrite delay_timed by assumption. cbv zeta.
  rewrite (u16_small (timer (data m) + msecs)) by assumption.
  unfold SECOND in *.
  destruct (1000 <=? timer (data m) + msecs) eqn:Hc;
    cbn [data timer seconds]; [|now split].
  apply Z.leb_le in Hc.
  rewrite u16_small, u8_small by lia. now split.
Qed.

(** [delay] within the range of the counters: as long as the sum of
    [timer] and the duration fits the 16 bits of [timer] and [seconds] is
    below the top of its 8 bits, the arithmetic of a call is exact; and the
    call leaves the state, the outputs, the pin snapshot and the other
    registers alone. *)
Lemma delay_within_range (msecs : Z) (m : mcu) :
  (timed (state (data m)) = true ->
   0 <= timer (data m) + msecs < 65536 /\ 0 <= seconds (data m) < 255) ->
  delay_carry msecs m (delay msecs m)
  /\ state (data (delay msecs m)) = state (data m)
  /\ pinb (data (delay msecs m)) = pinb (data m)
  /\ PORTB (delay msecs m) = PORTB m
  /\ DDRB (delay msecs m) = DDRB m
  /\ GIMSK (delay msecs m) = GIMSK m
  /\ PCMSK (delay msecs m) = PCMSK m.
Proof.
  intros Hrange. split; [|apply delay_frame].
  destruct (timed (state (data m))) eqn:Ht.
  - destruct (Hrange eq_refl) as [Hsum Hsec]. now apply delay_exact.
  - unfold delay_carry, clock_kept. rewrite Ht.
    now rewrite delay_untimed.
Qed.

Lemma booting19_clock :
  state (data booting19) = boot_state
  /\ timer (data booting19) = 800 /\ seconds (data booting19) = 3.
Proof. vm_compute. repeat split. Qed.

(** The ranges matter to the function taken alone: with a duration of
    65000 ms, which no call of the program passes, [timer] goes from 800 to
    264 (65800 modulo 65536) and nothing is carried; and with [seconds] set
    to 255, which no execution reaches, the carry brings it to 0. *)
Remark delay_wraps_out_of_range :
  (timer (data (delay 65000 booting19)) = 264
   /\ seconds (data (delay 65000 booting19)) = 3
   /\ ~ delay_carry 65000 booting19 (delay 65000 booting19))
  /\ (state (data shutdown255) = shutdown_state
      /\ timer (data shutdown255) = 800 /\ seconds (data shutdown255) = 255
      /\ timer (data (delay 200 shutdown255)) = 0
      /\ seconds (data (delay 200 shutdown255)) = 0
      /\ ~ delay_carry 200 shutdown255 (delay 200 shutdown255)).
Proof.
  repeat split; try (vm_compute; reflexivity);
    vm_compute; intros [H1 H2]; discriminate.
Qed.

(** * The tick dispatcher *)

Lemma elapsed_ms_eq (m : mcu) :
  elapsed_ms m = 1000 * seconds (data m) + timer (data m).
Proof. reflexivity. Qed.

(** One period of a timed state: the LED is toggled and the clock advances
    by the period; the sub-second part stays below one second. *)
Lemma tick_period (period : Z) (m : mcu) :
  timed (state (data m)) = true ->
  0 <= period <= 1000 ->
  0 <= timer (data m) < 1000 ->
  0 <= seconds (data m) < 255 ->
  let m' := delay period (TOGGLE_PORTB LED m) in
  state (data m') = state (data m)
  /\ elapsed_ms m' = elapsed_ms m + period
  /\ 0 <= timer (data m') < 1000
  /\ seconds (data m) <= seconds (data m').
Proof.
  intros Ht Hp Htm Hsec m'.
  assert (Hc : delay_carry period (TOGGLE_PORTB LED m) m').
  { apply delay_exact; cbn [TOGGLE_PORTB set_PORTB data state timer seconds];
      [assumption | lia | lia]. }
  destruct (delay_frame period (TOGGLE_PORTB LED m)) as (Hs & _).
  fold m' in Hs. split; [exact Hs|].
  unfold delay_carry in Hc.
  cbn [TOGGLE_PORTB set_PORTB data state timer seconds] in Hc.
  rewrite Ht in Hc. rewrite !elapsed_ms_eq. unfold SECOND in Hc.
  destruct (1000 <=? timer (data m) + period) eqn:Hcmp;
    destruct Hc as [-> ->];
    [apply Z.leb_le in Hcmp | apply Z.leb_gt in Hcmp]; lia.
Qed.

(** A boot tick before the timeout. *)
Lemma boot_tick_early (m : mcu) :
  state (data m) = boot_state ->
  0 <= timer (data m) < 1000 -> 0 <= seconds (data m) ->
  elapsed_ms m + 200 < 40000 ->
  state (data (boot_tick m)) = boot_state
  /\ elapsed_ms (boot_tick m) = elapsed_ms m + 200
  /\ 0 <= timer (data (boot_tick m)) < 1000
  /\ 0 <= seconds (data (boot_tick m))
  /\ power_enabled (boot_tick m) = power_enabled m
  /\ shutdown_signal (boot_tick m) = shutdown_signal m.
Proof.
  intros Hs Htm Hsec He. rewrite elapsed_ms_eq in He.
  destruct (tick_period BOOT_TICK m) as (Hs' & He' & Htm' & Hsec');
    [now rewrite Hs | unfold BOOT_TICK; lia | assumption | lia |].
  destruct (delay_frame BOOT_TICK (TOGGLE_PORTB LED m)) as (_ & _ & Hport & _).
  unfold boot_tick.
  set (m' := delay BOOT_TICK (TOGGLE_PORTB LED m)) in *.
  rewrite !elapsed_ms_eq in He'. unfold BOOT_TICK in He'.
  replace (BOOT_TIMEOUT <=? seconds (data m')) with false
    by (symmetry; apply Z.leb_gt; unfold BOOT_TIMEOUT; lia).
  rewrite Hs', Hs, !elapsed_ms_eq.
  repeat split; try lia.
  - unfold power_enabled. rewrite Hport. now pin_levels.
  - unfold shutdown_signal. rewrite Hport. now pin_levels.
Qed.

(** The boot tick that reaches the timeout. *)
Lemma boot_tick_timeout (m : mcu) :
  state (data m) = boot_state ->
  0 <= timer (data m) < 1000 -> 0 <= seconds (data m) < 255 ->
  40000 <= elapsed_ms m + 200 ->
  boot_tick m = state_change idle_state (delay BOOT_TICK (TOGGLE_PORTB LED m)).
Proof.
  intros Hs Htm Hsec He. rewrite elapsed_ms_eq in He.
  destruct (tick_period BOOT_TICK m) as (Hs' & He' & Htm' & Hsec');
    [now rewrite Hs | unfold BOOT_TICK; lia | assumption | lia |].
  unfold boot_tick.
  set (m' := delay BOOT_TICK (TOGGLE_PORTB LED m)) in *.
  rewrite !elapsed_ms_eq in He'. unfold BOOT_TICK in He'.
  replace (BOOT_TIMEOUT <=? seconds (data m')) with true
    by (symmetry; apply Z.leb_le; unfold BOOT_TIMEOUT; lia).
  reflexivity.
Qed.

Lemma ticks_S (n : nat) (m : mcu) : ticks (S n) m = loop (ticks n m).
Proof. reflexivity. Qed.

Lemma ticks_S_r (n : nat) (m : mcu) : ticks (S n) m = ticks n (loop m).
Proof. apply Nat.iter_succ_r. Qed.

Lemma ticks_add (a b : nat) (m : mcu) :
  ticks (a + b) m = ticks b (ticks a m).
Proof.
  unfold ticks. rewrite Nat.add_comm. apply Nat.iter_add.
Qed.

Lemma transitions_add (a b : nat) (m : mcu) :
  transitions (a + b) m = (transitions a m + transitions b (ticks a m))%nat.
Proof.
  revert m. induction a as [|a IH]; intros m; [reflexivity|].
  cbn [Nat.add transitions]. rewrite IH, ticks_S_r. lia.
Qed.

Lemma state_eqb_refl (s : state_t) : state_eqb s s = true.
Proof. now destruct s. Qed.

Lemma state_eqb_eq (a b : state_t) : state_eqb a b = true <-> a = b.
Proof. destruct a, b; cbn; split; congruence. Qed.

(** No transition is counted while the main loop leaves the configuration
    as it is. *)
Lemma transitions_fixed (n : nat) (m : mcu) :
  loop m = m -> transitions n m = 0%nat.
Proof.
  intros Hfix. induction n as [|n IH]; [reflexivity|].
  cbn [transitions]. now rewrite Hfix, state_eqb_refl, IH.
Qed.

Lemma ticks_fixed (n : nat) (m : mcu) : loop m = m -> ticks n m = m.
Proof.
  intros Hfix. induction n as [|n IH]; [reflexivity|].
  now rewrite ticks_S, IH.
Qed.

(** No transition is counted while the state stays the same. *)
Lemma transitions_same_state (n : nat) (m : mcu) :
  (forall j, (j <= n)%nat -> state (data (ticks j m)) = state (data m)) ->
  transitions n m = 0%nat.
Proof.
  revert m. induction n as [|n IH]; intros m H; [reflexivity|].
  cbn [transitions].
  assert (H1 : state (data (loop m)) = state (data m))
    by (apply (H 1%nat); lia).
  rewrite H1, state_eqb_refl, IH; [reflexivity|].
  intros j Hj. rewrite <- ticks_S_r, H1. apply H. lia.
Qed.

(** In [idle_state] and [poweroff_state] the main loop only sleeps. *)
Lemma loop_asleep (m : mcu) :
  state (data m) = idle_state \/ state (data m) = poweroff_state ->
  loop m = m.
Proof. unfold loop, sleep_mode. now intros [-> | ->]. Qed.

Lemma loop_boot (m : mcu) : state (data m) = boot_state -> loop m = boot_tick m.
Proof. unfold loop. now intros ->. Qed.

Lemma loop_shutdown (m : mcu) :
  state (data m) = shutdown_state -> loop m = shutdown_tick m.
Proof. unfold loop. now intros ->. Qed.

(** The boot sequence before the timeout: [k] ticks put 200 ms each on the
    clock and leave the machine booting, with the host's lines as they
    were. *)
Lemma boot_ticks_early (k : nat) (m : mcu) :
  state (data m) = boot_state ->
  0 <= timer (data m) < 1000 -> 0 <= seconds (data m) ->
  elapsed_ms m + 200 * Z.of_nat k < 40000 ->
  state (data (ticks k m)) = boot_state
  /\ elapsed_ms (ticks k m) = elapsed_ms m + 200 * Z.of_nat k
  /\ 0 <= timer (data (ticks k m)) < 1000
  /\ 0 <= seconds (data (ticks k m))
  /\ power_enabled (ticks k m) = power_enabled m
  /\ shutdown_signal (ticks k m) = shutdown_signal m.
Proof.
  intros Hs Htm Hsec. induction k as [|k IH]; intros He.
  - change (ticks 0 m) with m.
    repeat split; try assumption; try reflexivity; lia.
  - destruct IH as (Hs' & He' & Htm' & Hsec' & Hpw & Hsd); [lia|].
    rewrite ticks_S, loop_boot by assumption.
    destruct (boot_tick_early (ticks k m)) as (H1 & H2 & H3 & H4 & H5 & H6);
      try assumption; [lia|].
    repeat split; try assumption; try lia; congruence.
Qed.

(** The tick that brings the clock to 40 s leaves [boot_state]. *)
Lemma boot_ticks_timeout (n : nat) (m : mcu) :
  state (data m) = boot_state ->
  0 <= timer (data m) < 1000 -> 0 <= seconds (data m) ->
  elapsed_ms m + 200 * Z.of_nat n = 39800 ->
  ticks (S n) m
  = state_change idle_state (delay BOOT_TICK (TOGGLE_PORTB LED (ticks n m)))
  /\ seconds (data (ticks (S n) m)) = 40.
Proof.
  intros Hs Htm Hsec He.
  destruct (boot_ticks_early n m) as (Hs' & He' & Htm' & Hsec' & _);
    try assumption; [lia|].
  rewrite elapsed_ms_eq in He'.
  assert (Hlt : seconds (data (ticks n m)) < 255) by lia.
  rewrite ticks_S, loop_boot, boot_tick_timeout
    by (try assumption; rewrite ?elapsed_ms_eq; lia).
  split; [reflexivity|].
  destruct (tick_period BOOT_TICK (ticks n m)) as (_ & He2 & Htm2 & _);
    [now rewrite Hs' | unfold BOOT_TICK; lia | assumption | lia |].
  rewrite state_change_eq. cbn [data seconds].
  rewrite !elapsed_ms_eq in He2. unfold BOOT_TICK in *.
  lia.
Qed.

Lemma booting_fresh :
  state (data booting) = boot_state
  /\ timer (data booting) = 0 /\ seconds (data booting) = 0.
Proof. vm_compute. repeat split. Qed.

(** C5, as the specification words it, fails: forty boot ticks put 8 s on
    the clock, not 40 s, and the machine is still booting. *)
Lemma boot_not_over_after_40_ticks :
  state (data booting) = boot_state
  /\ clock_zero booting
  /\ state (data (ticks 40 booting)) = boot_state
  /\ seconds (data (ticks 40 booting)) = 8
  /\ transitions 40 booting = 0%nat.
Proof. vm_compute. repeat split. Qed.

(** C5, as amended.  From a fresh entry into [boot_state] (both counters
    zero) and with no interrupt, the boot ticks, of 200 ms each, make
    exactly one transition, to [idle_state], and make it at the two
    hundredth tick, when [seconds] has reached [BOOT_TIMEOUT]; fewer than
    two hundred ticks make none, and the ticks after it make no other. *)
Theorem boot_timeout_at_tick_200 (m : mcu) :
  state (data m) = boot_state ->
  timer (data m) = 0 -> seconds (data m) = 0 ->
  (forall k, (k < 200)%nat ->
     state (data (ticks k m)) = boot_state
     /\ seconds (data (ticks k m)) < BOOT_TIMEOUT
     /\ transitions k m = 0%nat)
  /\ seconds (data (ticks 200 m)) = BOOT_TIMEOUT
  /\ (forall k, (200 <= k)%nat ->
        state (data (ticks k m)) = idle_state
        /\ transitions k m = 1%nat).
Proof.
  intros Hs Htm Hsec.
  assert (He0 : elapsed_ms m = 0) by (rewrite elapsed_ms_eq; lia).
  assert (Hearly : forall k, (k < 200)%nat ->
            state (data (ticks k m)) = boot_state
            /\ seconds (data (ticks k m)) < BOOT_TIMEOUT).
  { intros k Hk.
    destruct (boot_ticks_early k m) as (Hs' & He' & Htm' & _);
      try assumption; try lia.
    split; [assumption|].
    rewrite elapsed_ms_eq in He'. unfold BOOT_TIMEOUT. lia. }
  assert (Hnone : forall k, (k < 200)%nat -> transitions k m = 0%nat).
  { intros k Hk. apply transitions_same_state. intros j Hj.
    rewrite Hs. apply Hearly. lia. }
  destruct (boot_ticks_timeout 199 m) as (Heq & H40);
    try assumption; try lia.
  assert (Hidle : state (data (ticks 200 m)) = idle_state)
    by (rewrite Heq; apply state_change_state).
  split; [|split].
  - intros k Hk. destruct (Hearly k Hk). auto.
  - exact H40.
  - intros k Hk.
    replace k with (200 + (k - 200))%nat by lia.
    rewrite ticks_add, transitions_add.
    rewrite (ticks_fixed (k - 200) (ticks 200 m)),
      (transitions_fixed (k - 200) (ticks 200 m))
      by (apply loop_asleep; auto).
    split; [assumption|].
    change 200%nat with (199 + 1)%nat at 1.
    rewrite transitions_add, Hnone by lia.
    cbn [transitions]. rewrite <- ticks_S.
    destruct (Hearly 199%nat) as [-> _]; [lia|].
    now rewrite Hidle.
Qed.


Lemma boot_timeout_at_tick_200_witness :
  state (data (ticks 200 booting)) = idle_state
  /\ transitions 200 booting = 1%nat.
Proof.
  destruct booting_fresh as (Hs & Htm & Hsec).
  destruct (boot_timeout_at_tick_200 booting Hs Htm Hsec) as (_ & _ & H).
  apply (H 200%nat). lia.
Defined.

(** * The interrupt handler *)

(** The handler, with its two tests read as rising edges. *)
Lemma ISR_eq (PINB : Z) (m : mcu) :
  ISR PINB m =
  let m1 := set_pinb PINB m in
  let m2 := if rising_edge RPI_IN PINB m then rpi_in_rose m1 else m1 in
  if rising_edge BTN PINB m then btn_rose m2 else m2.
Proof.
  unfold ISR. rewrite !rose_rising_edge; [reflexivity | |];
    unfold BTN, RPI_IN, DDB2, DDB3; lia.
Qed.

(** The host-ready branch leaves the state and the outputs alone. *)
Lemma rpi_in_rose_frame (m : mcu) :
  state (data (rpi_in_rose m)) = state (data m)
  /\ timer (data (rpi_in_rose m)) = timer (data m)
  /\ pinb (data (rpi_in_rose m)) = pinb (data m)
  /\ PORTB (rpi_in_rose m) = PORTB m.
Proof.
  destruct m as [[s t sec p] ddrb portb gimsk pcmsk]. now destruct s.
Qed.

Lemma rpi_in_rose_other (m : mcu) :
  state (data m) <> boot_state -> rpi_in_rose m = m.
Proof. unfold rpi_in_rose. now destruct (state (data m)). Qed.

Lemma btn_rose_other (m : mcu) :
  state (data m) <> idle_state -> state (data m) <> poweroff_state ->
  btn_rose m = m.
Proof. unfold btn_rose. now destruct (state (data m)). Qed.

Lemma btn_rose_idle (m : mcu) :
  state (data m) = idle_state -> btn_rose m = state_change shutdown_state m.
Proof. unfold btn_rose. now intros ->. Qed.

Lemma btn_rose_poweroff (m : mcu) :
  state (data m) = poweroff_state -> btn_rose m = state_change boot_state m.
Proof. unfold btn_rose. now intros ->. Qed.

(** What is left of the handler once the host-ready branch is known to do
    nothing. *)
Lemma ISR_not_booting (PINB : Z) (m : mcu) :
  state (data m) <> boot_state ->
  ISR PINB m = (if rising_edge BTN PINB m
                then btn_rose (set_pinb PINB m) else set_pinb PINB m).
Proof.
  intros Hs. rewrite ISR_eq. cbv zeta.
  rewrite rpi_in_rose_other by exact Hs.
  now destruct (rising_edge RPI_IN PINB m).
Qed.

(** C2.  At an interrupt with a rising edge of the button line, the handler
    enters [shutdown_state] from [idle_state], which raises the shutdown
    line, and enters [boot_state] from [poweroff_state], which enables the
    host's supply and releases the shutdown line.  In [boot_state],
    [shutdown_state] and [unknown_state] the edge does nothing: the handler
    does what it does without it, and the state and the output register
    are as before. *)
Theorem button_rising_edge (PINB : Z) (m : mcu) :
  rising_edge BTN PINB m = true ->
  match state (data m) with
  | idle_state =>
      ISR PINB m = state_change shutdown_state (set_pinb PINB m)
      /\ state (data (ISR PINB m)) = shutdown_state
      /\ shutdown_signal (ISR PINB m) = true
  | poweroff_state =>
      ISR PINB m = state_change boot_state (set_pinb PINB m)
      /\ state (data (ISR PINB m)) = boot_state
      /\ power_enabled (ISR PINB m) = true
      /\ shutdown_signal (ISR PINB m) = false
  | boot_state | shutdown_state | unknown_state =>
      ISR PINB m = (if rising_edge RPI_IN PINB m
                    then rpi_in_rose (set_pinb PINB m) else set_pinb PINB m)
      /\ state (data (ISR PINB m)) = state (data m)
      /\ PORTB (ISR PINB m) = PORTB m
  end.
Proof.
  intros Hbtn.
  destruct (state (data m)) eqn:Hs.
  1, 2, 4:
    rewrite ISR_eq, Hbtn; cbv zeta;
    set (m2 := if rising_edge RPI_IN PINB m
               then rpi_in_rose (set_pinb PINB m) else set_pinb PINB m);
    assert (Hm2 : state (data m2) = state (data m)
                  /\ PORTB m2 = PORTB m)
      by (subst m2; destruct (rising_edge RPI_IN PINB m);
          [destruct (rpi_in_rose_frame (set_pinb PINB m)) as (-> & _ & _ & ->)
          |]; split; reflexivity);
    destruct Hm2 as [Hs2 Hp2];
    rewrite btn_rose_other by (rewrite Hs2, Hs; discriminate);
    rewrite Hs2, Hp2, Hs; repeat split.
  - rewrite ISR_not_booting, Hbtn, btn_rose_idle
      by (assumption || (rewrite Hs; discriminate)).
    split; [reflexivity|]. split; [apply state_change_state|].
    apply (state_change_entry_action shutdown_state).
  - rewrite ISR_not_booting, Hbtn, btn_rose_poweroff
      by (assumption || (rewrite Hs; discriminate)).
    split; [reflexivity|]. split; [apply state_change_state|].
    destruct (state_change_entry_action boot_state (set_pinb PINB m))
      as (_ & Hpw & Hsd & _).
    now split.
Qed.

Lemma button_rising_edge_witness :
  state (data (ISR (_BV BTN) powered_off)) = boot_state
  /\ power_enabled (ISR (_BV BTN) powered_off) = true
  /\ shutdown_signal (ISR (_BV BTN) powered_off) = false.
Proof.
  assert (H : rising_edge BTN (_BV BTN) powered_off = true)
    by (vm_compute; reflexivity).
  apply (button_rising_edge (_BV BTN) powered_off) in H.
  exact (proj2 H).
Defined.

(** Once [seconds] has reached the boot timeout, the next boot tick enters
    [idle_state], whatever the sub-second counter holds. *)
Lemma boot_tick_after_timeout (m : mcu) :
  state (data m) = boot_state ->
  seconds (data m) = BOOT_TIMEOUT ->
  state (data (boot_tick m)) = idle_state.
Proof.
  intros Hs Hsec. unfold boot_tick.
  rewrite delay_timed
    by (cbn [TOGGLE_PORTB set_PORTB data state]; now rewrite Hs).
  cbv zeta. cbn [TOGGLE_PORTB set_PORTB data state timer seconds pinb].
  rewrite Hsec.
  destruct (SECOND <=? u16 (timer (data m) + BOOT_TICK));
    cbn [data seconds];
    [change (BOOT_TIMEOUT <=? u8 (BOOT_TIMEOUT + 1)) with true
    |change (BOOT_TIMEOUT <=? BOOT_TIMEOUT) with true];
    apply state_change_state.
Qed.

(** C3.  At an interrupt with a rising edge of the host-ready line: in
    [boot_state] the handler sets [seconds] to [BOOT_TIMEOUT] and leaves the
    state as it is, and the next iteration of the main loop, a boot tick,
    enters [idle_state], however little time has passed; in every other
    state the edge does nothing, the handler does what the button branch
    alone does. *)
Theorem host_ready_rising_edge (PINB : Z) (m : mcu) :
  rising_edge RPI_IN PINB m = true ->
  match state (data m) with
  | boot_state =>
      seconds (data (ISR PINB m)) = BOOT_TIMEOUT
      /\ state (data (ISR PINB m)) = boot_state
      /\ timer (data (ISR PINB m)) = timer (data m)
      /\ PORTB (ISR PINB m) = PORTB m
      /\ state (data (loop (ISR PINB m))) = idle_state
  | idle_state | poweroff_state | shutdown_state | unknown_state =>
      ISR PINB m = (if rising_edge BTN PINB m
                    then btn_rose (set_pinb PINB m) else set_pinb PINB m)
  end.
Proof.
  intros Hin.
  destruct (state (data m)) eqn:Hs;
    try (apply ISR_not_booting; rewrite Hs; discriminate).
  assert (HISR : ISR PINB m = set_seconds BOOT_TIMEOUT (set_pinb PINB m)).
  { rewrite ISR_eq, Hin. cbv zeta.
    assert (Hr : rpi_in_rose (set_pinb PINB m)
                 = set_seconds BOOT_TIMEOUT (set_pinb PINB m))
      by (unfold rpi_in_rose; cbn [set_pinb data state]; now rewrite Hs).
    rewrite Hr.
    destruct (rising_edge BTN PINB m); [|reflexivity].
    apply btn_rose_other; cbn [set_seconds set_pinb data state];
      rewrite Hs; discriminate. }
  rewrite HISR. cbn [set_seconds set_pinb data state timer seconds PORTB].
  repeat split; try assumption.
  rewrite loop_boot by (cbn [set_seconds set_pinb data state]; assumption).
  apply boot_tick_after_timeout; cbn [set_seconds set_pinb data state seconds];
    [assumption | reflexivity].
Qed.

Lemma host_ready_rising_edge_witness :
  state (data (ticks 1 booting)) = boot_state
  /\ seconds (data (ticks 1 booting)) = 0
  /\ state (data (loop (ISR (_BV BTN + _BV RPI_IN) (ticks 1 booting))))
     = idle_state.
Proof.
  assert (H : rising_edge RPI_IN (_BV BTN + _BV RPI_IN) (ticks 1 booting)
              = true) by (vm_compute; reflexivity).
  apply (host_ready_rising_edge _ (ticks 1 booting)) in H.
  assert (Hs : state (data (ticks 1 booting)) = boot_state)
    by (vm_compute; reflexivity).
  rewrite Hs in H. destruct H as (_ & _ & _ & _ & H).
  split; [exact Hs|]. split; [vm_compute; reflexivity | exact H].
Defined.

(** C10.  When the host-ready line and the button line both rise at one
    interrupt in [poweroff_state], the handler tests the host-ready edge
    first, against [poweroff_state], where it does nothing; the button edge
    then enters [boot_state] with both counters at zero.  The boot wait is
    not shortened: the machine stays booting for 199 ticks and enters
    [idle_state] at the two hundredth.  Had the button branch come first,
    [seconds] would have been forced to [BOOT_TIMEOUT]. *)
Theorem both_edges_in_poweroff (PINB : Z) (m : mcu) :
  state (data m) = poweroff_state ->
  rising_edge RPI_IN PINB m = true ->
  rising_edge BTN PINB m = true ->
  ISR PINB m = btn_rose (rpi_in_rose (set_pinb PINB m))
  /\ rpi_in_rose (set_pinb PINB m) = set_pinb PINB m
  /\ ISR PINB m = state_change boot_state (set_pinb PINB m)
  /\ state (data (ISR PINB m)) = boot_state
  /\ timer (data (ISR PINB m)) = 0
  /\ seconds (data (ISR PINB m)) = 0
  /\ (forall k, (k < 200)%nat ->
        state (data (ticks k (ISR PINB m))) = boot_state)
  /\ state (data (ticks 200 (ISR PINB m))) = idle_state
  /\ seconds (data (rpi_in_rose (btn_rose (set_pinb PINB m)))) = BOOT_TIMEOUT.
Proof.
  intros Hs Hin Hbtn.
  assert (Hs1 : state (data (set_pinb PINB m)) = poweroff_state)
    by (cbn [set_pinb data state]; assumption).
  assert (Hr : rpi_in_rose (set_pinb PINB m) = set_pinb PINB m)
    by (apply rpi_in_rose_other; rewrite Hs1; discriminate).
  assert (HISR : ISR PINB m = state_change boot_state (set_pinb PINB m)).
  { rewrite ISR_eq, Hin, Hbtn. cbv zeta.
    rewrite Hr. now apply btn_rose_poweroff. }
  split; [rewrite HISR, Hr; symmetry; now apply btn_rose_poweroff|].
  split; [exact Hr|]. split; [exact HISR|].
  rewrite btn_rose_poweroff by assumption. rewrite HISR.
  destruct (state_change_entry_action boot_state (set_pinb PINB m))
    as (_ & _ & _ & _ & Htm & Hsec).
  pose proof (state_change_state boot_state (set_pinb PINB m)) as Hb.
  split; [exact Hb|]. split; [exact Htm|]. split; [exact Hsec|].
  split; [|split].
  - intros k Hk.
    destruct (boot_ticks_early k _ Hb) as (Hk' & _);
      rewrite ?elapsed_ms_eq; try assumption; lia.
  - destruct (boot_ticks_timeout 199 _ Hb) as (-> & _);
      rewrite ?elapsed_ms_eq; try lia.
    apply state_change_state.
  - unfold rpi_in_rose. now rewrite Hb.
Qed.

Lemma both_edges_in_poweroff_witness :
  state (data (ISR (_BV BTN + _BV RPI_IN) powered_off)) = boot_state
  /\ timer (data (ISR (_BV BTN + _BV RPI_IN) powered_off)) = 0
  /\ seconds (data (ISR (_BV BTN + _BV RPI_IN) powered_off)) = 0.
Proof.
  destruct (both_edges_in_poweroff (_BV BTN + _BV RPI_IN) powered_off)
    as (_ & _ & _ & Hs & Htm & Hsec & _);
    try (vm_compute; reflexivity).
  repeat split; assumption.
Defined.

(** * Initialisation *)

(** In [unknown_state] the handler only records the pins. *)
Lemma ISR_unknown (PINB : Z) (m : mcu) :
  state (data m) = unknown_state -> ISR PINB m = set_pinb PINB m.
Proof.
  intros Hs. rewrite ISR_not_booting by (rewrite Hs; discriminate).
  destruct (rising_edge BTN PINB m); [|reflexivity].
  apply btn_rose_other; cbn [set_pinb data state]; rewrite Hs; discriminate.
Qed.

(** [setup] up to [sei()], as one record: LED, RPI_PWR and RPI_OUT are
    outputs, RPI_PWR is high and the other pins are low. *)
Lemma setup_init_eq (PINB : Z) (m : mcu) :
  setup_init PINB m
  = mk_mcu (mk_data unknown_state 0 0 PINB) 19 1
      (u8 (Z.lor (GIMSK m) (_BV PCIE)))
      (u8 (Z.lor (PCMSK m) (Z.lor (_BV PCINT2) (_BV PCINT3)))).
Proof.
  destruct m as [[s t sec p] ddrb portb gimsk pcmsk].
  cbv [setup_init cli sei power_adc_disable set_sleep_mode_PWR_DOWN
       set_DDRB set_PORTB set_GIMSK set_PCMSK set_state set_timer
       set_seconds set_pinb OUT_DDRB IN_DDRB HIGH_PORTB LOW_PORTB
       data state timer seconds pinb DDRB PORTB GIMSK PCMSK].
  f_equal; vm_compute; reflexivity.
Qed.

(** [setup] as one record. *)
Lemma setup_eq (PINB : Z) (m : mcu) :
  setup PINB m
  = mk_mcu (mk_data poweroff_state 0 0 PINB) 19 1
      (u8 (Z.lor (GIMSK m) (_BV PCIE)))
      (u8 (Z.lor (PCMSK m) (Z.lor (_BV PCINT2) (_BV PCINT3)))).
Proof.
  unfold setup. rewrite setup_init_eq, state_change_eq.
  cbn [data state timer seconds pinb DDRB PORTB GIMSK PCMSK].
  f_equal.
Qed.

Lemma set_pinb_setup_init (p PINB : Z) (m : mcu) :
  set_pinb p (setup_init PINB m) = setup_init p m.
Proof. now rewrite !setup_init_eq. Qed.

Lemma last_cons_default (p d : Z) (l : list Z) :
  last (p :: l) d = last l p.
Proof.
  revert p d. induction l as [|q l IH]; intros p d; [reflexivity|].
  change (last (p :: q :: l) d) with (last (q :: l) d).
  now rewrite (IH q d), (IH q p).
Qed.

(** Interrupts served before the first transition leave their last sample
    in the snapshot and nothing else. *)
Lemma run_interrupts_setup_init (irqs : list Z) (PINB : Z) (m : mcu) :
  run (setup_init PINB m) (map Interrupt irqs)
  = setup_init (last irqs PINB) m.
Proof.
  revert PINB. induction irqs as [|p irqs IH]; intros PINB; [reflexivity|].
  cbn [map run fold_left step].
  rewrite ISR_unknown, set_pinb_setup_init
    by (now rewrite setup_init_eq).
  fold (run (setup_init p m) (map Interrupt irqs)). rewrite IH.
  now rewrite last_cons_default.
Qed.

(** C7.  Whatever the levels of the input pins ([PINB], and the samples
    [irqs] of the interrupts served before the first transition) and
    whatever the configuration before, [setup] ends in [poweroff_state],
    not in [unknown_state], with both counters at zero and with the entry
    action of [poweroff_state] done: the host's supply disabled, the LED
    off, the shutdown line released. *)
Theorem setup_powers_off (PINB : Z) (irqs : list Z) (m : mcu) :
  state (data (setup PINB m)) = poweroff_state
  /\ state_eqb (state (data (setup PINB m))) unknown_state = false
  /\ timer (data (setup PINB m)) = 0
  /\ seconds (data (setup PINB m)) = 0
  /\ power_enabled (setup PINB m) = false
  /\ led_on (setup PINB m) = false
  /\ shutdown_signal (setup PINB m) = false
  /\ pinb (data (setup PINB m)) = PINB
  /\ setup_interrupted PINB irqs m = setup (last irqs PINB) m.
Proof.
  split; [|split; [|split; [|split; [|split; [|split; [|split; [|split]]]]]]];
    try (rewrite setup_eq; reflexivity).
  unfold setup_interrupted, setup.
  now rewrite run_interrupts_setup_init.
Qed.

(** * The output lines along an execution *)

(** A timed tick is the period, followed or not by a transition. *)
Lemma boot_tick_cases (m : mcu) :
  let m' := delay BOOT_TICK (TOGGLE_PORTB LED m) in
  boot_tick m = m' \/ boot_tick m = state_change idle_state m'.
Proof.
  cbv zeta. unfold boot_tick.
  destruct (BOOT_TIMEOUT <=? _); [now right | now left].
Qed.

Lemma shutdown_tick_cases (m : mcu) :
  let m' := delay SHUTDOWN_TICK (TOGGLE_PORTB LED m) in
  shutdown_tick m = m' \/ shutdown_tick m = state_change poweroff_state m'.
Proof.
  cbv zeta. unfold shutdown_tick.
  destruct (SHUTDOWN_TIMEOUT <=? _); [now right | now left].
Qed.

(** The period of a timed tick toggles the LED and keeps the state. *)
Lemma period_frame (period : Z) (m : mcu) :
  state (data (delay period (TOGGLE_PORTB LED m))) = state (data m)
  /\ PORTB (delay period (TOGGLE_PORTB LED m)) = bit_toggle (PORTB m) LED.
Proof.
  destruct (delay_frame period (TOGGLE_PORTB LED m)) as (-> & _ & -> & _).
  now split.
Qed.

(** Settles a goal on the levels of the lines after a chain of writes,
    by the cases of the levels before. *)
Ltac lines :=
  unfold lines_match_state, lines_match in *;
  cbn [data state PORTB] in *;
  autorewrite with pins;
  cbn [LED RPI_PWR RPI_OUT BTN RPI_IN DDB0 DDB1 DDB2 DDB3 DDB4 Z.eqb
       Pos.eqb] in *;
  repeat match goal with
    | H : context [Z.testbit ?p ?i] |- _ => destruct (Z.testbit p i)
    | |- context [Z.testbit ?p ?i] => destruct (Z.testbit p i)
    end;
  cbn in *; congruence.

Lemma lines_match_state_eq (m : mcu) (s : state_t) (portb : Z) :
  state (data m) = s -> PORTB m = portb ->
  lines_match_state m = lines_match s portb.
Proof. now intros <- <-. Qed.

(** The entry actions establish the levels of their state, given those of
    the state left. *)
Lemma lines_match_enter_idle (portb : Z) :
  lines_match boot_state portb = true ->
  lines_match idle_state (bit_high (bit_toggle portb LED) LED) = true.
Proof. intros H. lines. Qed.

Lemma lines_match_enter_poweroff (portb : Z) :
  lines_match poweroff_state
    (bit_low (bit_low (bit_high (bit_toggle portb LED) RPI_PWR) LED) RPI_OUT)
  = true.
Proof. lines. Qed.

Lemma lines_match_enter_shutdown (portb : Z) :
  lines_match idle_state portb = true ->
  lines_match shutdown_state (bit_low (bit_high portb RPI_OUT) LED) = true.
Proof. intros H. lines. Qed.

Lemma lines_match_enter_boot (portb : Z) :
  lines_match boot_state
    (bit_low (bit_low (bit_low portb LED) RPI_PWR) RPI_OUT) = true.
Proof. lines. Qed.

Lemma lines_match_blink (s : state_t) (portb : Z) :
  timed s = true ->
  lines_match s portb = true ->
  lines_match s (bit_toggle portb LED) = true.
Proof. intros Ht H. destruct s; try discriminate Ht; lines. Qed.

(** The main loop keeps the lines in step with the state. *)
Lemma loop_lines (m : mcu) :
  lines_match_state m = true -> lines_match_state (loop m) = true.
Proof.
  intros H. unfold loop. destruct (state (data m)) eqn:Hs.
  - unfold lines_match_state in H. rewrite Hs in H. discriminate H.
  - destruct (period_frame BOOT_TICK m) as [Hs' Hp'].
    unfold lines_match_state in H. rewrite Hs in H.
    destruct (boot_tick_cases m) as [-> | ->].
    + erewrite lines_match_state_eq by (rewrite ?Hs', ?Hp', ?Hs; reflexivity).
      now apply lines_match_blink.
    + rewrite state_change_eq. unfold lines_match_state.
      cbn [data state PORTB]. rewrite Hp'.
      now apply lines_match_enter_idle.
  - exact H.
  - destruct (period_frame SHUTDOWN_TICK m) as [Hs' Hp'].
    unfold lines_match_state in H. rewrite Hs in H.
    destruct (shutdown_tick_cases m) as [-> | ->].
    + erewrite lines_match_state_eq by (rewrite ?Hs', ?Hp', ?Hs; reflexivity).
      now apply lines_match_blink.
    + rewrite state_change_eq. unfold lines_match_state.
      cbn [data state PORTB]. rewrite Hp'.
      apply lines_match_enter_poweroff.
  - exact H.
Qed.

(** So does the interrupt handler. *)
Lemma ISR_lines (PINB : Z) (m : mcu) :
  lines_match_state m = true -> lines_match_state (ISR PINB m) = true.
Proof.
  intros H. rewrite ISR_eq. cbv zeta.
  set (m2 := if rising_edge RPI_IN PINB m
             then rpi_in_rose (set_pinb PINB m) else set_pinb PINB m).
  assert (Hm2 : state (data m2) = state (data m) /\ PORTB m2 = PORTB m).
  { subst m2. destruct (rising_edge RPI_IN PINB m); [|now split].
    destruct (rpi_in_rose_frame (set_pinb PINB m)) as (-> & _ & _ & ->).
    now split. }
  destruct Hm2 as [Hs2 Hp2].
  assert (H2 : lines_match_state m2 = true)
    by (unfold lines_match_state in *; now rewrite Hs2, Hp2).
  destruct (rising_edge BTN PINB m); [|exact H2].
  unfold btn_rose. unfold lines_match_state in H2.
  destruct (state (data m2)) eqn:Hs; try (unfold lines_match_state;
    rewrite Hs; exact H2).
  - rewrite state_change_eq. unfold lines_match_state.
    cbn [data state PORTB]. now apply lines_match_enter_shutdown.
  - rewrite state_change_eq. unfold lines_match_state.
    cbn [data state PORTB]. apply lines_match_enter_boot.
Qed.

Lemma step_lines (m : mcu) (e : event) :
  lines_match_state m = true -> lines_match_state (step m e) = true.
Proof. destruct e; [apply loop_lines | apply ISR_lines]. Qed.

Lemma run_lines (evs : list event) (m : mcu) :
  lines_match_state m = true -> lines_match_state (run m evs) = true.
Proof.
  revert m. induction evs as [|e evs IH]; intros m H; [exact H|].
  cbn [run fold_left]. apply IH. now apply step_lines.
Qed.

Lemma setup_lines (PINB : Z) (m0 : mcu) :
  lines_match_state (setup PINB m0) = true.
Proof. now rewrite setup_eq. Qed.

(** The invariant of the executions that start with [setup]. *)
Lemma reachable_lines (PINB : Z) (m0 : mcu) (evs : list event) :
  lines_match_state (run (setup PINB m0) evs) = true.
Proof. apply run_lines, setup_lines. Qed.

(** An iteration of the main loop that makes no transition leaves the two
    host lines alone; it toggles the LED in the timed states and leaves it
    alone in the others. *)
Lemma loop_no_transition (m : mcu) :
  state (data (loop m)) = state (data m) ->
  power_enabled (loop m) = power_enabled m
  /\ shutdown_signal (loop m) = shutdown_signal m
  /\ led_on (loop m)
     = if timed (state (data m)) then negb (led_on m) else led_on m.
Proof.
  unfold loop. destruct (state (data m)) eqn:Hs; cbn [timed].
  - intros _. unfold bork_tick, DELAY.
    split; [|split]; pin_levels; now destruct (Z.testbit (PORTB m) _).
  - destruct (period_frame BOOT_TICK m) as [Hs' Hp'].
    destruct (boot_tick_cases m) as [-> | ->].
    + intros _. unfold led_on, power_enabled, shutdown_signal.
      rewrite Hp'. split; [|split]; now pin_levels.
    + rewrite state_change_state. discriminate.
  - intros _. now repeat split.
  - destruct (period_frame SHUTDOWN_TICK m) as [Hs' Hp'].
    destruct (shutdown_tick_cases m) as [-> | ->].
    + intros _. unfold led_on, power_enabled, shutdown_signal.
      rewrite Hp'. split; [|split]; now pin_levels.
    + rewrite state_change_state. discriminate.
  - intros _. now repeat split.
Qed.

Lemma lines_match_levels (m : mcu) :
  lines_match_state m = true ->
  power_enabled m = negb (state_eqb (state (data m)) poweroff_state)
  /\ shutdown_signal m = state_eqb (state (data m)) shutdown_state
  /\ (if state_eqb (state (data m)) idle_state then led_on m = true
      else if state_eqb (state (data m)) poweroff_state then led_on m = false
      else True).
Proof.
  unfold lines_match_state, lines_match, power_enabled, shutdown_signal,
    led_on.
  destruct (state (data m)); cbn [state_eqb negb];
    destruct (Z.testbit (PORTB m) RPI_PWR), (Z.testbit (PORTB m) RPI_OUT),
      (Z.testbit (PORTB m) LED); cbn; intros H;
    try discriminate H; now repeat split.
Qed.

(** C6, as the specification words it, fails for the LED: a boot tick that
    makes no transition switches the LED, which was off, on. *)
Lemma boot_tick_toggles_led :
  state (data booting) = boot_state
  /\ state (data (loop booting)) = boot_state
  /\ led_on booting = false
  /\ led_on (loop booting) = true.
Proof. vm_compute. repeat split. Qed.

(** C6, as amended.  In every configuration an execution reaches after
    [setup], by ticks of the main loop and runs of the interrupt handler in
    any order, the levels of the two host lines are a function of the state
    alone: the supply is enabled in every state but [poweroff_state], the
    shutdown line is raised in [shutdown_state] and in no other; and the LED
    is on in [idle_state] and off in [poweroff_state].  An iteration of the
    main loop that makes no transition leaves the two host lines as they
    are; it leaves the LED as it is in [idle_state] and [poweroff_state],
    and toggles it in [boot_state] and [shutdown_state], where the LED
    blinks. *)
Theorem outputs_follow_state (PINB : Z) (m0 : mcu) (evs : list event) :
  let m := run (setup PINB m0) evs in
  power_enabled m = negb (state_eqb (state (data m)) poweroff_state)
  /\ shutdown_signal m = state_eqb (state (data m)) shutdown_state
  /\ (if state_eqb (state (data m)) idle_state then led_on m = true
      else if state_eqb (state (data m)) poweroff_state then led_on m = false
      else True)
  /\ (state (data (loop m)) = state (data m) ->
      power_enabled (loop m) = power_enabled m
      /\ shutdown_signal (loop m) = shutdown_signal m
      /\ led_on (loop m)
         = if timed (state (data m)) then negb (led_on m) else led_on m).
Proof.
  intros m.
  destruct (lines_match_levels m (reachable_lines PINB m0 evs))
    as (Hpw & Hsd & Hled).
  repeat (split; [assumption|]). apply loop_no_transition.
Qed.

Lemma outputs_follow_state_witness :
  let m := run (setup 0 mcu0) [Interrupt (_BV BTN)] in
  power_enabled (loop m) = power_enabled m
  /\ shutdown_signal (loop m) = shutdown_signal m
  /\ led_on (loop m)
     = if timed (state (data m)) then negb (led_on m) else led_on m.
Proof.
  intros m.
  destruct (outputs_follow_state 0 mcu0 [Interrupt (_BV BTN)])
    as (_ & _ & _ & H).
  apply H. vm_compute. reflexivity.
Defined.

(** Neither the main loop nor the handler enters [unknown_state]. *)
Lemma step_unknown (m : mcu) (e : event) :
  state (data (step m e)) = unknown_state -> state (data m) = unknown_state.
Proof.
  destruct e as [|PINB]; cbn [step].
  - unfold loop. destruct (state (data m)) eqn:Hs; try (intros _; reflexivity).
    + destruct (period_frame BOOT_TICK m) as [Hs' _].
      destruct (boot_tick_cases m) as [-> | ->];
        rewrite ?state_change_state, ?Hs', ?Hs; discriminate.
    + unfold sleep_mode. rewrite Hs. discriminate.
    + destruct (period_frame SHUTDOWN_TICK m) as [Hs' _].
      destruct (shutdown_tick_cases m) as [-> | ->];
        rewrite ?state_change_state, ?Hs', ?Hs; discriminate.
    + unfold sleep_mode. rewrite Hs. discriminate.
  - rewrite ISR_eq. cbv zeta.
    set (m2 := if rising_edge RPI_IN PINB m
               then rpi_in_rose (set_pinb PINB m) else set_pinb PINB m).
    assert (Hs2 : state (data m2) = state (data m)).
    { subst m2. destruct (rising_edge RPI_IN PINB m); [|reflexivity].
      now destruct (rpi_in_rose_frame (set_pinb PINB m)) as (-> & _). }
    destruct (rising_edge BTN PINB m); [|now rewrite Hs2].
    unfold btn_rose. rewrite <- Hs2.
    destruct (state (data m2)) eqn:Hs; rewrite ?state_change_state, ?Hs;
      try discriminate; auto.
Qed.

(** * The shutdown sequence and the power cycle *)

(** A shutdown tick before the timeout. *)
Lemma shutdown_tick_early (m : mcu) :
  state (data m) = shutdown_state ->
  0 <= timer (data m) < 1000 -> 0 <= seconds (data m) ->
  elapsed_ms m + 500 < 40000 ->
  state (data (shutdown_tick m)) = shutdown_state
  /\ elapsed_ms (shutdown_tick m) = elapsed_ms m + 500
  /\ 0 <= timer (data (shutdown_tick m)) < 1000
  /\ 0 <= seconds (data (shutdown_tick m)).
Proof.
  intros Hs Htm Hsec He. rewrite elapsed_ms_eq in He.
  destruct (tick_period SHUTDOWN_TICK m) as (Hs' & He' & Htm' & Hsec');
    [now rewrite Hs | unfold SHUTDOWN_TICK; lia | assumption | lia |].
  unfold shutdown_tick.
  set (m' := delay SHUTDOWN_TICK (TOGGLE_PORTB LED m)) in *.
  rewrite !elapsed_ms_eq in He'. unfold SHUTDOWN_TICK in He'.
  replace (SHUTDOWN_TIMEOUT <=? seconds (data m')) with false
    by (symmetry; apply Z.leb_gt; unfold SHUTDOWN_TIMEOUT; lia).
  rewrite Hs', Hs, !elapsed_ms_eq.
  repeat split; lia.
Qed.

(** The shutdown tick that reaches the timeout. *)
Lemma shutdown_tick_timeout (m : mcu) :
  state (data m) = shutdown_state ->
  0 <= timer (data m) < 1000 -> 0 <= seconds (data m) < 255 ->
  40000 <= elapsed_ms m + 500 ->
  shutdown_tick m
  = state_change poweroff_state (delay SHUTDOWN_TICK (TOGGLE_PORTB LED m)).
Proof.
  intros Hs Htm Hsec He. rewrite elapsed_ms_eq in He.
  destruct (tick_period SHUTDOWN_TICK m) as (Hs' & He' & Htm' & Hsec');
    [now rewrite Hs | unfold SHUTDOWN_TICK; lia | assumption | lia |].
  unfold shutdown_tick.
  set (m' := delay SHUTDOWN_TICK (TOGGLE_PORTB LED m)) in *.
  rewrite !elapsed_ms_eq in He'. unfold SHUTDOWN_TICK in He'.
  replace (SHUTDOWN_TIMEOUT <=? seconds (data m')) with true
    by (symmetry; apply Z.leb_le; unfold SHUTDOWN_TIMEOUT; lia).
  reflexivity.
Qed.

Lemma shutdown_ticks_early (k : nat) (m : mcu) :
  state (data m) = shutdown_state ->
  0 <= timer (data m) < 1000 -> 0 <= seconds (data m) ->
  elapsed_ms m + 500 * Z.of_nat k < 40000 ->
  state (data (ticks k m)) = shutdown_state
  /\ elapsed_ms (ticks k m) = elapsed_ms m + 500 * Z.of_nat k
  /\ 0 <= timer (data (ticks k m)) < 1000
  /\ 0 <= seconds (data (ticks k m)).
Proof.
  intros Hs Htm Hsec. induction k as [|k IH]; intros He.
  - change (ticks 0 m) with m. repeat split; try assumption; lia.
  - destruct IH as (Hs' & He' & Htm' & Hsec'); [lia|].
    rewrite ticks_S, loop_shutdown by assumption.
    destruct (shutdown_tick_early (ticks k m)) as (H1 & H2 & H3 & H4);
      try assumption; [lia|].
    repeat split; try assumption; lia.
Qed.

(** The tick that brings the clock of the shutdown to 40 s enters
    [poweroff_state]. *)
Lemma shutdown_ticks_timeout (n : nat) (m : mcu) :
  state (data m) = shutdown_state ->
  0 <= timer (data m) < 1000 -> 0 <= seconds (data m) ->
  elapsed_ms m + 500 * Z.of_nat n = 39500 ->
  ticks (S n) m
  = state_change poweroff_state
      (delay SHUTDOWN_TICK (TOGGLE_PORTB LED (ticks n m))).
Proof.
  intros Hs Htm Hsec He.
  destruct (shutdown_ticks_early n m) as (Hs' & He' & Htm' & Hsec');
    try assumption; [lia|].
  rewrite elapsed_ms_eq in He'.
  assert (Hlt : seconds (data (ticks n m)) < 255) by lia.
  rewrite ticks_S, loop_shutdown, shutdown_tick_timeout
    by (try assumption; rewrite ?elapsed_ms_eq; lia).
  reflexivity.
Qed.

Lemma run_cons (m : mcu) (e : event) (evs : list event) :
  run m (e :: evs) = run (step m e) evs.
Proof. reflexivity. Qed.

Lemma run_app (m : mcu) (evs evs' : list event) :
  run m (evs ++ evs') = run (run m evs) evs'.
Proof. apply fold_left_app. Qed.

Lemma run_ticks (n : nat) (m : mcu) : run m (repeat Tick n) = ticks n m.
Proof.
  revert m. induction n as [|n IH]; intros m; [reflexivity|].
  cbn [repeat]. now rewrite run_cons, IH, ticks_S_r.
Qed.

(** The button branch of the handler, from [idle_state] and
    [poweroff_state]. *)
Lemma ISR_button (PINB : Z) (m : mcu) :
  state (data m) <> boot_state ->
  rising_edge BTN PINB m = true ->
  ISR PINB m = btn_rose (set_pinb PINB m).
Proof. intros Hs Hb. now rewrite ISR_not_booting, Hb. Qed.

(** Without a rising edge of the button, and outside [boot_state], the
    handler only records the pins. *)
Lemma ISR_no_button (PINB : Z) (m : mcu) :
  state (data m) <> boot_state ->
  Z.testbit PINB BTN = false ->
  ISR PINB m = set_pinb PINB m.
Proof.
  intros Hs Hb. rewrite ISR_not_booting by assumption.
  unfold rising_edge. now rewrite Hb, andb_false_r.
Qed.

(** A press of the button in [poweroff_state]. *)
Lemma press_in_poweroff (PINB : Z) (m : mcu) :
  state (data m) = poweroff_state ->
  rising_edge BTN PINB m = true ->
  ISR PINB m = state_change boot_state (set_pinb PINB m).
Proof.
  intros Hs Hb.
  rewrite ISR_button, btn_rose_poweroff
    by (rewrite ?Hs; auto; discriminate).
  reflexivity.
Qed.

(** A release of the button and a new press in [idle_state]. *)
Lemma release_press_in_idle (release press : Z) (m : mcu) :
  state (data m) = idle_state ->
  Z.testbit release BTN = false ->
  Z.testbit press BTN = true ->
  ISR press (ISR release m)
  = state_change shutdown_state (set_pinb press (set_pinb release m)).
Proof.
  intros Hs Hrel Hp.
  rewrite (ISR_no_button release m) by (rewrite ?Hs; auto; discriminate).
  rewrite ISR_button, btn_rose_idle;
    [ reflexivity | exact Hs
    | cbn [set_pinb data state]; rewrite Hs; discriminate
    | unfold rising_edge; cbn [set_pinb data pinb];
      rewrite Z.lxor_spec, Hp, Hrel; reflexivity ].
Qed.

(** A whole boot, from the entry into [boot_state]. *)
Lemma boot_to_idle (n : nat) (m : mcu) :
  n = 200%nat ->
  state (data m) = boot_state ->
  timer (data m) = 0 -> seconds (data m) = 0 ->
  state (data (ticks n m)) = idle_state.
Proof.
  intros -> Hs Htm Hsec.
  destruct (boot_ticks_timeout 199 m) as (-> & _);
    try assumption; try lia; [rewrite elapsed_ms_eq; lia|].
  apply state_change_state.
Qed.

(** A whole shutdown, from the entry into [shutdown_state]: the machine
    ends in [poweroff_state], with the entry action of that state done. *)
Lemma shutdown_to_poweroff (n : nat) (m : mcu) :
  n = 80%nat ->
  state (data m) = shutdown_state ->
  timer (data m) = 0 -> seconds (data m) = 0 ->
  state (data (ticks n m)) = poweroff_state
  /\ power_enabled (ticks n m) = false
  /\ led_on (ticks n m) = false
  /\ shutdown_signal (ticks n m) = false.
Proof.
  intros -> Hs Htm Hsec.
  rewrite (shutdown_ticks_timeout 79 m)
    by (try assumption; rewrite ?elapsed_ms_eq; lia).
  split; [apply state_change_state|].
  destruct (state_change_entry_action poweroff_state
              (delay SHUTDOWN_TICK (TOGGLE_PORTB LED (ticks 79 m))))
    as (Hpw & Hled & Hsd & _).
  split; [assumption|]. split; assumption.
Qed.

Lemma run_power_cycle (m : mcu) (press1 release press2 : Z) (a b : nat) :
  run m (Interrupt press1 :: repeat Tick a
         ++ Interrupt release :: Interrupt press2 :: repeat Tick b)
  = ticks b (ISR press2 (ISR release (ticks a (ISR press1 m)))).
Proof.
  now rewrite run_cons, run_app, run_ticks, !run_cons, run_ticks.
Qed.

(** The power cycle, state by state; [a] and [b] are the numbers of boot
    ticks and of shutdown ticks. *)
Lemma power_cycle_states (a b : nat) (m : mcu) (press1 release press2 : Z) :
  a = 200%nat -> b = 80%nat ->
  state (data m) = poweroff_state ->
  rising_edge BTN press1 m = true ->
  Z.testbit release BTN = false ->
  Z.testbit press2 BTN = true ->
  let m' := run m (Interrupt press1 :: repeat Tick a
                   ++ Interrupt release :: Interrupt press2
                   :: repeat Tick b) in
  state (data (ISR press1 m)) = boot_state
  /\ state (data (ticks a (ISR press1 m))) = idle_state
  /\ state (data (ISR press2 (ISR release (ticks a (ISR press1 m)))))
     = shutdown_state
  /\ state (data m') = poweroff_state
  /\ power_enabled m' = false
  /\ led_on m' = false
  /\ shutdown_signal m' = false.
Proof.
  intros Ha Hb Hs Hp1 Hrel Hp2. cbv zeta.
  rewrite run_power_cycle.
  rewrite (press_in_poweroff press1 m Hs Hp1).
  pose proof (state_change_state boot_state (set_pinb press1 m)) as Hs1.
  destruct (state_change_entry_action boot_state (set_pinb press1 m))
    as (_ & _ & _ & _ & Htm1 & Hsec1).
  pose proof (boot_to_idle a _ Ha Hs1 Htm1 Hsec1) as Hs2.
  rewrite (release_press_in_idle release press2 _ Hs2 Hrel Hp2).
  set (m2 := set_pinb press2 (set_pinb release _)) in *.
  pose proof (state_change_state shutdown_state m2) as Hs3.
  destruct (state_change_entry_action shutdown_state m2)
    as (_ & _ & _ & Htm3 & Hsec3).
  destruct (shutdown_to_poweroff b _ Hb Hs3 Htm3 Hsec3)
    as (Hs4 & Hpw & Hled & Hsd).
  repeat (split; [assumption|]). assumption.
Qed.

(** C9.  From a configuration in [poweroff_state] that an execution reaches
    after [setup], the cycle: a button press ([boot_state]), 200 boot ticks
    ([idle_state]), a release and a second press ([shutdown_state]), 80
    shutdown ticks, ends in [poweroff_state] with the host's supply, the
    shutdown line and the LED at the levels they had at the start, those
    of [poweroff_state]: supply disabled, shutdown line released, LED
    off. *)
Theorem power_cycle_round_trip
  (PINB : Z) (m0 : mcu) (evs : list event) (press1 release press2 : Z) :
  let m := run (setup PINB m0) evs in
  state (data m) = poweroff_state ->
  rising_edge BTN press1 m = true ->
  Z.testbit release BTN = false ->
  Z.testbit press2 BTN = true ->
  let m' := run m (power_cycle press1 release press2) in
  state (data (ISR press1 m)) = boot_state
  /\ state (data (ticks 200 (ISR press1 m))) = idle_state
  /\ state (data (ISR press2 (ISR release (ticks 200 (ISR press1 m)))))
     = shutdown_state
  /\ state (data m') = poweroff_state
  /\ power_enabled m' = power_enabled m
  /\ shutdown_signal m' = shutdown_signal m
  /\ led_on m' = led_on m
  /\ power_enabled m' = false
  /\ shutdown_signal m' = false
  /\ led_on m' = false.
Proof.
  intros m Hs Hp1 Hrel Hp2 m'.
  destruct (power_cycle_states 200 80 m press1 release press2
              eq_refl eq_refl Hs Hp1 Hrel Hp2)
    as (Hs1 & Hs2 & Hs3 & Hs4 & Hpw & Hled & Hsd).
  change (state (data m') = poweroff_state) in Hs4.
  change (power_enabled m' = false) in Hpw.
  change (led_on m' = false) in Hled.
  change (shutdown_signal m' = false) in Hsd.
  destruct (lines_match_levels m (reachable_lines PINB m0 evs))
    as (Hpw0 & Hsd0 & Hled0).
  rewrite Hs in Hpw0, Hsd0, Hled0. cbn [state_eqb negb] in Hpw0, Hsd0, Hled0.
  repeat (split; [congruence|]). assumption.
Qed.

Lemma power_cycle_round_trip_witness :
  state (data (run (run (setup 0 mcu0) [])
                 (power_cycle (_BV BTN) 0 (_BV BTN)))) = poweroff_state
  /\ led_on (run (run (setup 0 mcu0) [])
               (power_cycle (_BV BTN) 0 (_BV BTN)))
     = led_on (run (setup 0 mcu0) []).
Proof.
  pose proof (power_cycle_round_trip 0 mcu0 [] (_BV BTN) 0 (_BV BTN)) as H.
  cbv zeta in H.
  destruct H as (_ & _ & _ & Hs & _ & _ & Hled & _);
    [vm_compute; reflexivity | vm_compute; reflexivity
    | vm_compute; reflexivity | vm_compute; reflexivity |].
  split; [exact Hs | exact Hled].
Defined.

(** * Interrupts inside a tick *)

(** The statement-by-statement programs are the functions above. *)
Lemma finish_state_change_p (s : state_t) (k : prog) (m : mcu) :
  finish (state_change_p s k) m = finish k (state_change s m).
Proof.
  unfold state_change_p, state_change. cbn [finish].
  cbn [set_state data state]. destruct s; reflexivity.
Qed.

Lemma finish_delay_p (msecs : Z) (k : prog) (m : mcu) :
  finish (delay_p msecs k) m = finish k (delay msecs m).
Proof.
  unfold delay_p, delay. cbn [finish].
  destruct (state (data m)); cbn [finish]; try reflexivity;
    destruct (SECOND <=? _); reflexivity.
Qed.

Lemma finish_boot_tick_p (k : prog) (m : mcu) :
  finish (boot_tick_p k) m = finish k (boot_tick m).
Proof.
  unfold boot_tick_p, boot_tick. cbn [finish].
  rewrite finish_delay_p. cbn [finish].
  destruct (BOOT_TIMEOUT <=? _); [apply finish_state_change_p|reflexivity].
Qed.

Lemma finish_shutdown_tick_p (k : prog) (m : mcu) :
  finish (shutdown_tick_p k) m = finish k (shutdown_tick m).
Proof.
  unfold shutdown_tick_p, shutdown_tick. cbn [finish].
  rewrite finish_delay_p. cbn [finish].
  destruct (SHUTDOWN_TIMEOUT <=? _);
    [apply finish_state_change_p|reflexivity].
Qed.

Lemma finish_loop_p (m : mcu) : finish loop_p m = loop m.
Proof.
  unfold loop_p, loop. cbn [finish].
  destruct (state (data m)).
  - reflexivity.
  - apply (finish_boot_tick_p Ret).
  - reflexivity.
  - apply (finish_shutdown_tick_p Ret).
  - reflexivity.
Qed.

Lemma keeps_known_state_change_p (s : state_t) (k : prog) :
  s <> unknown_state -> keeps_known k -> keeps_known (state_change_p s k).
Proof.
  intros Hs Hk. unfold state_change_p. cbn [keeps_known].
  split; [intros m _; exact Hs|].
  intros s'; destruct s'; cbn [keeps_known]; auto 10.
Qed.

Lemma keeps_known_delay_p (msecs : Z) (k : prog) :
  keeps_known k -> keeps_known (delay_p msecs k).
Proof.
  intros Hk. unfold delay_p. cbn [keeps_known].
  intros s; destruct s; cbn [keeps_known]; auto 10.
Qed.

Lemma keeps_known_loop_p : keeps_known loop_p.
Proof.
  unfold loop_p. cbn [keeps_known]. intros s; destruct s.
  - unfold bork_tick_p. cbn [keeps_known]. auto 10.
  - unfold boot_tick_p. cbn [keeps_known]. split; [auto|].
    apply keeps_known_delay_p. cbn [keeps_known]. split; [|exact I].
    apply keeps_known_state_change_p; [discriminate|exact I].
  - cbn [keeps_known]. auto.
  - unfold shutdown_tick_p. cbn [keeps_known]. split; [auto|].
    apply keeps_known_delay_p. cbn [keeps_known]. split; [|exact I].
    apply keeps_known_state_change_p; [discriminate|exact I].
  - cbn [keeps_known]. auto.
Qed.

Lemma pstep_known (c : mcu * prog) (e : pevent) :
  state (data (fst c)) <> unknown_state /\ keeps_known (snd c) ->
  state (data (fst (pstep c e))) <> unknown_state
  /\ keeps_known (snd (pstep c e)).
Proof.
  destruct c as [m p]. cbn [fst snd]. intros [Hm Hp].
  destruct e as [|PINB]; cbn [pstep fst snd].
  - unfold main_step. cbn [fst snd].
    destruct p as [|f k|t kt kf|k]; cbn [fst snd keeps_known] in *.
    + split; [assumption|apply keeps_known_loop_p].
    + destruct Hp as [Hf Hk]. split; [now apply Hf|assumption].
    + destruct Hp as [Ht Hf]. split; [assumption|].
      now destruct (t m).
    + split; [assumption|apply Hp].
  - split; [|assumption].
    intros H. apply Hm. exact (step_unknown m (Interrupt PINB) H).
Qed.

Lemma prun_known (evs : list pevent) (c : mcu * prog) :
  state (data (fst c)) <> unknown_state /\ keeps_known (snd c) ->
  state (data (fst (prun c evs))) <> unknown_state.
Proof.
  revert c. induction evs as [|e evs IH]; intros c H; [apply H|].
  cbn [prun fold_left]. apply IH. now apply pstep_known.
Qed.

Lemma state_eqb_unknown (s : state_t) :
  s <> unknown_state -> state_eqb s unknown_state = false.
Proof. now destruct s. Qed.

(** C8.  In every configuration an execution reaches after [setup], the
    state is not [unknown_state]: so it is when whole ticks of the main
    loop and runs of the interrupt handler follow one another in any order,
    and so it is when the handler runs between any two statements of the
    main line.  And no step of the loop or of the handler, from any
    configuration whatever, ends in [unknown_state] unless it started
    there. *)
Theorem never_unknown_after_setup :
  (forall (PINB : Z) (m0 : mcu) (evs : list event),
     state_eqb (state (data (run (setup PINB m0) evs))) unknown_state = false)
  /\ (forall (PINB : Z) (m0 : mcu) (evs : list pevent),
        state_eqb (state (data (fst (prun (setup PINB m0, loop_p) evs))))
          unknown_state = false)
  /\ (forall (m : mcu) (e : event),
        state (data (step m e)) = unknown_state ->
        state (data m) = unknown_state).
Proof.
  split; [|split; [|exact step_unknown]].
  - intros PINB m0 evs.
    pose proof (reachable_lines PINB m0 evs) as H.
    unfold lines_match_state, lines_match in H.
    now destruct (state (data (run (setup PINB m0) evs))).
  - intros PINB m0 evs. apply state_eqb_unknown, prun_known.
    cbn [fst snd]. split; [|apply keeps_known_loop_p].
    rewrite setup_eq. discriminate.
Qed.

Lemma never_unknown_after_setup_witness :
  state_eqb (state (data (run (setup 0 mcu0)
                            (power_cycle (_BV BTN) 0 (_BV BTN)))))
    unknown_state = false
  /\ state (data mcu0) = unknown_state.
Proof.
  destruct never_unknown_after_setup as (Hrun & _ & Hstep).
  split.
  - apply Hrun.
  - apply (Hstep mcu0 Tick). vm_compute. reflexivity.
Defined.

(** * Further properties of the handler *)

Lemma set_pinb_same (m : mcu) : set_pinb (pinb (data m)) m = m.
Proof. now destruct m as [[s t sec p] ddrb portb gimsk pcmsk]. Qed.

(** The handler leaves the sample it took in the snapshot. *)
Lemma ISR_pinb (PINB : Z) (m : mcu) : pinb (data (ISR PINB m)) = PINB.
Proof.
  rewrite ISR_eq. cbv zeta.
  set (m2 := if rising_edge RPI_IN PINB m
             then rpi_in_rose (set_pinb PINB m) else set_pinb PINB m).
  assert (H2 : pinb (data m2) = PINB).
  { subst m2. destruct (rising_edge RPI_IN PINB m); [|reflexivity].
    now destruct (rpi_in_rose_frame (set_pinb PINB m)) as (_ & _ & -> & _). }
  destruct (rising_edge BTN PINB m); [|exact H2].
  unfold btn_rose.
  destruct (state (data m2)); try exact H2;
    now destruct (state_change_frame shutdown_state m2) as (-> & _),
                 (state_change_frame boot_state m2) as (-> & _).
Qed.

(** Without a rising edge the handler only records the pins. *)
Lemma ISR_no_edge (PINB : Z) (m : mcu) :
  rising_edge RPI_IN PINB m = false ->
  rising_edge BTN PINB m = false ->
  ISR PINB m = set_pinb PINB m.
Proof. intros Hin Hbtn. now rewrite ISR_eq, Hin, Hbtn. Qed.

Lemma rising_edge_same (pin : Z) (m : mcu) :
  rising_edge pin (pinb (data m)) m = false.
Proof.
  unfold rising_edge. now rewrite Z.lxor_nilpotent, Z.bits_0.
Qed.

(** X1.  An interrupt at which neither the host-ready line nor the button
    line rises: a falling edge, a change of another pin, or a line that is
    high and was high: changes nothing but the snapshot, which takes the
    new sample; state, clock, outputs and registers are as before. *)
Theorem interrupt_without_rising_edge (PINB : Z) (m : mcu) :
  rising_edge RPI_IN PINB m = false ->
  rising_edge BTN PINB m = false ->
  ISR PINB m = set_pinb PINB m
  /\ state (data (ISR PINB m)) = state (data m)
  /\ timer (data (ISR PINB m)) = timer (data m)
  /\ seconds (data (ISR PINB m)) = seconds (data m)
  /\ PORTB (ISR PINB m) = PORTB m
  /\ pinb (data (ISR PINB m)) = PINB.
Proof.
  intros Hin Hbtn. rewrite (ISR_no_edge PINB m Hin Hbtn).
  split; [reflexivity|]. now repeat split.
Qed.

Lemma interrupt_without_rising_edge_witness :
  state (data (ISR 0 booting)) = state (data booting)
  /\ pinb (data (ISR 0 booting)) = 0.
Proof.
  destruct (interrupt_without_rising_edge 0 booting)
    as (_ & Hs & _ & _ & _ & Hp);
    [vm_compute; reflexivity | vm_compute; reflexivity |].
  split; [exact Hs | exact Hp].
Defined.

(** X2.  A second interrupt with the same pin levels as the one before does
    nothing: the handler compares with the snapshot the first one left, so
    a line that stays high triggers once. *)
Theorem interrupt_same_sample_twice (PINB : Z) (m : mcu) :
  ISR PINB (ISR PINB m) = ISR PINB m.
Proof.
  pose proof (ISR_pinb PINB m) as Hp.
  rewrite (ISR_no_edge PINB (ISR PINB m)).
  - rewrite <- Hp at 1. apply set_pinb_same.
  - rewrite <- Hp at 1. apply rising_edge_same.
  - rewrite <- Hp at 1. apply rising_edge_same.
Qed.

(** * Further properties of the steps *)

(** The main loop writes neither the snapshot nor the configuration
    registers. *)
Lemma loop_frame (m : mcu) :
  pinb (data (loop m)) = pinb (data m)
  /\ DDRB (loop m) = DDRB m
  /\ GIMSK (loop m) = GIMSK m
  /\ PCMSK (loop m) = PCMSK m.
Proof.
  unfold loop. destruct (state (data m)).
  - now repeat split.
  - destruct (delay_frame BOOT_TICK (TOGGLE_PORTB LED m))
      as (_ & Hp & _ & Hd & Hg & Hm).
    destruct (boot_tick_cases m) as [-> | ->].
    + rewrite Hp, Hd, Hg, Hm. now repeat split.
    + destruct (state_change_frame idle_state
                  (delay BOOT_TICK (TOGGLE_PORTB LED m)))
        as (-> & -> & -> & ->).
      rewrite Hp, Hd, Hg, Hm. now repeat split.
  - now repeat split.
  - destruct (delay_frame SHUTDOWN_TICK (TOGGLE_PORTB LED m))
      as (_ & Hp & _ & Hd & Hg & Hm).
    destruct (shutdown_tick_cases m) as [-> | ->].
    + rewrite Hp, Hd, Hg, Hm. now repeat split.
    + destruct (state_change_frame poweroff_state
                  (delay SHUTDOWN_TICK (TOGGLE_PORTB LED m)))
        as (-> & -> & -> & ->).
      rewrite Hp, Hd, Hg, Hm. now repeat split.
  - now repeat split.
Qed.

(** Nor does the handler write the configuration registers. *)
Lemma ISR_frame (PINB : Z) (m : mcu) :
  DDRB (ISR PINB m) = DDRB m
  /\ GIMSK (ISR PINB m) = GIMSK m
  /\ PCMSK (ISR PINB m) = PCMSK m.
Proof.
  rewrite ISR_eq. cbv zeta.
  set (m2 := if rising_edge RPI_IN PINB m
             then rpi_in_rose (set_pinb PINB m) else set_pinb PINB m).
  assert (H2 : DDRB m2 = DDRB m /\ GIMSK m2 = GIMSK m /\ PCMSK m2 = PCMSK m).
  { subst m2. destruct (rising_edge RPI_IN PINB m); [|now repeat split].
    unfold rpi_in_rose. cbn [set_pinb data state].
    destruct (state (data m)); now repeat split. }
  destruct (rising_edge BTN PINB m); [|exact H2].
  unfold btn_rose. destruct H2 as (Hd & Hg & Hm).
  destruct (state (data m2)); now repeat split.
Qed.

Lemma step_frame (m : mcu) (e : event) :
  DDRB (step m e) = DDRB m
  /\ GIMSK (step m e) = GIMSK m
  /\ PCMSK (step m e) = PCMSK m.
Proof.
  destruct e as [|PINB]; cbn [step]; [|apply ISR_frame].
  now destruct (loop_frame m) as (_ & -> & -> & ->).
Qed.

Lemma run_frame (evs : list event) (m : mcu) :
  DDRB (run m evs) = DDRB m
  /\ GIMSK (run m evs) = GIMSK m
  /\ PCMSK (run m evs) = PCMSK m.
Proof.
  revert m. induction evs as [|e evs IH]; intros m; [now repeat split|].
  rewrite run_cons.
  destruct (IH (step m e)) as (-> & -> & ->). apply step_frame.
Qed.

(** The state after a tick. *)
Lemma loop_state (m : mcu) :
  state (data (loop m)) = state (data m)
  \/ (state (data (loop m)) = successor (state (data m))
      /\ timed (state (data m)) = true).
Proof.
  unfold loop. destruct (state (data m)) eqn:Hs; try (now left).
  - destruct (period_frame BOOT_TICK m) as [Hs' _].
    destruct (boot_tick_cases m) as [-> | ->].
    + left. now rewrite Hs'.
    + right. now rewrite state_change_state.
  - destruct (period_frame SHUTDOWN_TICK m) as [Hs' _].
    destruct (shutdown_tick_cases m) as [-> | ->].
    + left. now rewrite Hs'.
    + right. now rewrite state_change_state.
Qed.

(** The state after a run of the handler. *)
Lemma ISR_state (PINB : Z) (m : mcu) :
  state (data (ISR PINB m)) = state (data m)
  \/ (state (data (ISR PINB m)) = successor (state (data m))
      /\ timed (state (data m)) = false
      /\ state_eqb (state (data m)) unknown_state = false
      /\ rising_edge BTN PINB m = true).
Proof.
  rewrite ISR_eq. cbv zeta.
  set (m2 := if rising_edge RPI_IN PINB m
             then rpi_in_rose (set_pinb PINB m) else set_pinb PINB m).
  assert (Hs2 : state (data m2) = state (data m)).
  { subst m2. destruct (rising_edge RPI_IN PINB m); [|reflexivity].
    now destruct (rpi_in_rose_frame (set_pinb PINB m)) as (-> & _). }
  destruct (rising_edge BTN PINB m); [|now left].
  unfold btn_rose. rewrite <- Hs2. clearbody m2.
  destruct (state (data m2)) eqn:E; try (left; exact E);
    right; now rewrite state_change_state.
Qed.

(** X3.  The state moves along the power cycle and in no other way: a step
    leaves the state as it is or moves it to the next state of the cycle
    [poweroff_state], [boot_state], [idle_state], [shutdown_state],
    [poweroff_state].  A tick moves it out of the two timed states only (a
    timeout), a run of the handler out of [idle_state] and [poweroff_state]
    only, and only at a rising edge of the button line; nothing moves it
    out of, or into, [unknown_state]. *)
Theorem steps_follow_the_cycle (m : mcu) (e : event) :
  state (data (step m e)) = state (data m)
  \/ (state (data (step m e)) = successor (state (data m))
      /\ state_eqb (state (data m)) unknown_state = false
      /\ match e with
         | Tick => timed (state (data m)) = true
         | Interrupt PINB =>
             timed (state (data m)) = false
             /\ rising_edge BTN PINB m = true
         end).
Proof.
  destruct e as [|PINB]; cbn [step].
  - destruct (loop_state m) as [H | [H Ht]]; [now left|right].
    split; [exact H|]. split; [|exact Ht].
    now destruct (state (data m)).
  - destruct (ISR_state PINB m) as [H | (H & Ht & Hu & Hb)]; [now left|right].
    split; [exact H|]. split; [exact Hu|]. split; [exact Ht|exact Hb].
Qed.

Lemma loop_pinb (m : mcu) : pinb (data (loop m)) = pinb (data m).
Proof. now destruct (loop_frame m) as (-> & _). Qed.

(** X4.  The snapshot always holds the pins as the last run of the handler
    saw them: the handler stores its sample whatever else it does, and the
    main loop never writes the snapshot. *)
Theorem snapshot_is_last_sample (evs : list event) (m : mcu) :
  pinb (data (run m evs)) = last_sample evs (pinb (data m)).
Proof.
  revert m. induction evs as [|e evs IH]; intros m; [reflexivity|].
  rewrite run_cons, IH. destruct e as [|PINB]; cbn [step last_sample].
  - now rewrite loop_pinb.
  - now rewrite ISR_pinb.
Qed.

(** In [unknown_state] a step changes neither the state, nor the clock, nor
    the level of a pin. *)
Lemma step_in_unknown (m : mcu) (e : event) :
  state (data m) = unknown_state ->
  state (data (step m e)) = unknown_state
  /\ timer (data (step m e)) = timer (data m)
  /\ seconds (data (step m e)) = seconds (data m)
  /\ led_on (step m e) = led_on m
  /\ power_enabled (step m e) = power_enabled m
  /\ shutdown_signal (step m e) = shutdown_signal m.
Proof.
  intros Hs. destruct e as [|PINB]; cbn [step].
  - unfold loop. rewrite Hs. unfold bork_tick, DELAY.
    split; [exact Hs|]. split; [reflexivity|]. split; [reflexivity|].
    split; [|split]; pin_levels; now destruct (Z.testbit (PORTB m) _).
  - rewrite (ISR_unknown PINB m Hs). cbn [set_pinb data state timer seconds].
    split; [exact Hs|]. split; [reflexivity|]. split; [reflexivity|].
    split; [|split]; reflexivity.
Qed.

(** X5.  [unknown_state] is a trap: from a configuration in that state no
    sequence of ticks and interrupts leaves it.  The button and the
    host-ready line are ignored, the clock stands, and after each step the
    LED (which the tick blinks twice) and the two host lines are at the
    level they had. *)
Theorem unknown_is_a_trap (evs : list event) (m : mcu) :
  state (data m) = unknown_state ->
  state (data (run m evs)) = unknown_state
  /\ timer (data (run m evs)) = timer (data m)
  /\ seconds (data (run m evs)) = seconds (data m)
  /\ led_on (run m evs) = led_on m
  /\ power_enabled (run m evs) = power_enabled m
  /\ shutdown_signal (run m evs) = shutdown_signal m.
Proof.
  revert m. induction evs as [|e evs IH]; intros m Hs.
  - split; [exact Hs|]. now repeat split.
  - rewrite run_cons.
    destruct (step_in_unknown m e Hs) as (Hs' & Ht & Hsec & Hl & Hp & Hd).
    destruct (IH (step m e) Hs') as (H1 & H2 & H3 & H4 & H5 & H6).
    split; [exact H1|]. split; [congruence|]. split; [congruence|].
    split; [congruence|]. split; congruence.
Qed.

Lemma unknown_is_a_trap_witness :
  state (data (run mcu0 (power_cycle (_BV BTN) 0 (_BV BTN))))
  = unknown_state.
Proof.
  apply (unknown_is_a_trap (power_cycle (_BV BTN) 0 (_BV BTN)) mcu0).
  reflexivity.
Defined.

Lemma testbit_u8_lor_BV (x pin : Z) :
  0 <= pin < 8 -> Z.testbit (u8 (Z.lor x (_BV pin))) pin = true.
Proof.
  intros Hp.
  rewrite testbit_u8, Z.lor_spec, testbit_BV, Z.eqb_refl by lia.
  apply orb_true_r.
Qed.

(** X6.  The pin configuration [setup] installs stays for good: in every
    configuration an execution reaches after [setup], LED, RPI_PWR and
    RPI_OUT are outputs and the other pins of port B, BTN and RPI_IN among
    them, are inputs; pin-change interrupts are enabled, for the button pin
    and for the host-ready pin.  Neither the main loop nor the handler
    writes DDRB, GIMSK or PCMSK. *)
Theorem pin_configuration_stays (PINB : Z) (m0 : mcu) (evs : list event) :
  DDRB (run (setup PINB m0) evs) = _BV LED + _BV RPI_PWR + _BV RPI_OUT
  /\ GIMSK (run (setup PINB m0) evs) = GIMSK (setup PINB m0)
  /\ PCMSK (run (setup PINB m0) evs) = PCMSK (setup PINB m0)
  /\ Z.testbit (GIMSK (run (setup PINB m0) evs)) PCIE = true
  /\ Z.testbit (PCMSK (run (setup PINB m0) evs)) BTN = true
  /\ Z.testbit (PCMSK (run (setup PINB m0) evs)) RPI_IN = true.
Proof.
  destruct (run_frame evs (setup PINB m0)) as (-> & -> & ->).
  rewrite setup_eq. cbn [DDRB GIMSK PCMSK].
  split; [reflexivity|]. split; [reflexivity|]. split; [reflexivity|].
  split; [apply testbit_u8_lor_BV; unfold PCIE; lia|].
  split.
  - rewrite testbit_u8, !Z.lor_spec, !testbit_BV
      by (unfold BTN, PCINT2, PCINT3, DDB2; lia).
    change (PCINT2 =? BTN) with true. cbn [orb]. apply orb_true_r.
  - rewrite testbit_u8, !Z.lor_spec, !testbit_BV
      by (unfold RPI_IN, PCINT2, PCINT3, DDB3; lia).
    change (PCINT3 =? RPI_IN) with true. now rewrite !orb_true_r.
Qed.

(** * The clock along an execution *)

(** After the period of a timed tick the clock is one period further and
    [seconds] at most one further. *)
Lemma tick_period_seconds (period : Z) (m : mcu) :
  timed (state (data m)) = true ->
  0 <= period <= 1000 ->
  0 <= timer (data m) < 1000 ->
  0 <= seconds (data m) < 255 ->
  let m' := delay period (TOGGLE_PORTB LED m) in
  0 <= timer (data m') < 1000
  /\ seconds (data m) <= seconds (data m') <= seconds (data m) + 1.
Proof.
  intros Ht Hp Htm Hsec m'.
  destruct (tick_period period m Ht Hp Htm Hsec) as (_ & He & Htm' & Hle).
  fold m' in He, Htm', Hle. rewrite !elapsed_ms_eq in He. lia.
Qed.

Lemma loop_clock_in_range (m : mcu) :
  clock_in_range m -> clock_in_range (loop m).
Proof.
  unfold clock_in_range, SECOND, BOOT_TIMEOUT, SHUTDOWN_TIMEOUT.
  intros (Htm & Hsec & Hst). unfold loop.
  destruct (state (data m)) eqn:Hs.
  - unfold bork_tick, DELAY.
    cbn [TOGGLE_PORTB set_PORTB data state timer seconds]. now rewrite Hs.
  - destruct (tick_period_seconds BOOT_TICK m) as (Htm' & Hsec');
      [now rewrite Hs | unfold BOOT_TICK; lia | lia | lia |].
    destruct (period_frame BOOT_TICK m) as [Hs' _].
    unfold boot_tick, BOOT_TIMEOUT.
    set (m' := delay BOOT_TICK (TOGGLE_PORTB LED m)) in *.
    destruct (40 <=? seconds (data m')) eqn:Hc.
    + rewrite state_change_eq. cbn [data state timer seconds]. lia.
    + apply Z.leb_gt in Hc. rewrite Hs', Hs. lia.
  - unfold sleep_mode. rewrite Hs. lia.
  - destruct (tick_period_seconds SHUTDOWN_TICK m) as (Htm' & Hsec');
      [now rewrite Hs | unfold SHUTDOWN_TICK; lia | lia | lia |].
    destruct (period_frame SHUTDOWN_TICK m) as [Hs' _].
    unfold shutdown_tick, SHUTDOWN_TIMEOUT.
    set (m' := delay SHUTDOWN_TICK (TOGGLE_PORTB LED m)) in *.
    destruct (40 <=? seconds (data m')) eqn:Hc.
    + rewrite state_change_eq. cbn [data state timer seconds]. lia.
    + apply Z.leb_gt in Hc. rewrite Hs', Hs. lia.
  - unfold sleep_mode. rewrite Hs. lia.
Qed.

(** The handler while booting: the host-ready edge forces the timeout, the
    button is ignored. *)
Lemma ISR_in_boot (PINB : Z) (m : mcu) :
  state (data m) = boot_state ->
  ISR PINB m = if rising_edge RPI_IN PINB m
               then set_seconds BOOT_TIMEOUT (set_pinb PINB m)
               else set_pinb PINB m.
Proof.
  intros Hs. rewrite ISR_eq. cbv zeta.
  assert (Hr : rpi_in_rose (set_pinb PINB m)
               = set_seconds BOOT_TIMEOUT (set_pinb PINB m))
    by (unfold rpi_in_rose; cbn [set_pinb data state]; now rewrite Hs).
  rewrite Hr.
  destruct (rising_edge RPI_IN PINB m), (rising_edge BTN PINB m);
    try reflexivity;
    apply btn_rose_other; cbn [set_seconds set_pinb data state];
    rewrite Hs; discriminate.
Qed.

(** The handler while shutting down only records the pins. *)
Lemma ISR_in_shutdown (PINB : Z) (m : mcu) :
  state (data m) = shutdown_state -> ISR PINB m = set_pinb PINB m.
Proof.
  intros Hs. rewrite ISR_not_booting by (rewrite Hs; discriminate).
  destruct (rising_edge BTN PINB m); [|reflexivity].
  apply btn_rose_other; cbn [set_pinb data state]; rewrite Hs; discriminate.
Qed.

Lemma ISR_clock_in_range (PINB : Z) (m : mcu) :
  clock_in_range m -> clock_in_range (ISR PINB m).
Proof.
  unfold clock_in_range, SECOND, BOOT_TIMEOUT, SHUTDOWN_TIMEOUT.
  intros (Htm & Hsec & Hst).
  destruct (state (data m)) eqn:Hs.
  - rewrite (ISR_unknown PINB m Hs). cbn [set_pinb data state timer seconds].
    now rewrite Hs.
  - rewrite (ISR_in_boot PINB m Hs).
    destruct (rising_edge RPI_IN PINB m);
      cbn [set_seconds set_pinb data state timer seconds];
      rewrite Hs; unfold BOOT_TIMEOUT; lia.
  - destruct (rising_edge BTN PINB m) eqn:Hb.
    + rewrite ISR_button, btn_rose_idle, state_change_eq
        by (try assumption; rewrite Hs; discriminate).
      cbn [data state timer seconds]. lia.
    + rewrite ISR_not_booting, Hb by (rewrite Hs; discriminate).
      cbn [set_pinb data state timer seconds]. rewrite Hs. lia.
  - rewrite (ISR_in_shutdown PINB m Hs).
    cbn [set_pinb data state timer seconds]. now rewrite Hs.
  - destruct (rising_edge BTN PINB m) eqn:Hb.
    + rewrite ISR_button, btn_rose_poweroff, state_change_eq
        by (try assumption; rewrite Hs; discriminate).
      cbn [data state timer seconds]. lia.
    + rewrite ISR_not_booting, Hb by (rewrite Hs; discriminate).
      cbn [set_pinb data state timer seconds]. rewrite Hs. lia.
Qed.

Lemma run_clock_in_range (evs : list event) (m : mcu) :
  clock_in_range m -> clock_in_range (run m evs).
Proof.
  revert m. induction evs as [|e evs IH]; intros m H; [exact H|].
  rewrite run_cons. apply IH.
  destruct e; [now apply loop_clock_in_range | now apply ISR_clock_in_range].
Qed.

Lemma reachable_clock_in_range (PINB : Z) (m0 : mcu) (evs : list event) :
  clock_in_range (run (setup PINB m0) evs).
Proof.
  apply run_clock_in_range. rewrite setup_eq.
  unfold clock_in_range, SECOND, BOOT_TIMEOUT. cbn [data state timer seconds].
  lia.
Qed.

(** X7.  The counters never wrap in an execution: in every configuration
    reached after [setup], [timer] is below 1000 and [seconds] is at most
    41 (at most 40 while booting, below 40 while shutting down).  So a call
    of [delay] there, with a duration of up to 64536 ms, is exact: it adds
    the duration to [timer] and carries at most one second, with no
    wrap-around. *)
Theorem clock_never_wraps
  (PINB : Z) (m0 : mcu) (evs : list event) (msecs : Z) :
  0 <= msecs <= 64536 ->
  clock_in_range (run (setup PINB m0) evs)
  /\ delay_carry msecs (run (setup PINB m0) evs)
       (delay msecs (run (setup PINB m0) evs)).
Proof.
  intros Hm. pose proof (reachable_clock_in_range PINB m0 evs) as Hr.
  split; [exact Hr|].
  destruct Hr as (Htm & Hsec & _). unfold SECOND, BOOT_TIMEOUT in *.
  destruct (timed (state (data (run (setup PINB m0) evs)))) eqn:Ht.
  - apply delay_exact; [exact Ht | lia | lia].
  - unfold delay_carry, clock_kept. rewrite Ht.
    now rewrite delay_untimed.
Qed.

Lemma clock_never_wraps_witness :
  delay_carry 500 (run (setup 0 mcu0) [Interrupt (_BV BTN); Tick])
    (delay 500 (run (setup 0 mcu0) [Interrupt (_BV BTN); Tick])).
Proof.
  apply (clock_never_wraps 0 mcu0 [Interrupt (_BV BTN); Tick] 500). lia.
Defined.

Lemma data_TOGGLE_PORTB (pin : Z) (m : mcu) :
  data (TOGGLE_PORTB pin m) = data m.
Proof. reflexivity. Qed.

(** C4.  Every call of [delay] the program makes finds the clock of a
    configuration an execution reaches after [setup] ([boot_tick] and
    [shutdown_tick] call it after toggling the LED, which leaves the
    struct [data] as it is), with a duration of 200 or 500 ms.  On every
    such call, and for every duration up to 64536 ms: in [boot_state] and
    [shutdown_state] the duration is added to [timer] and, when the sum
    reaches 1000, [seconds] goes up by exactly one and 1000 is taken off
    [timer], one carry per call; in every other state both counters are
    left as they are.  The call touches nothing but the clock.  And in a
    state that is not timed, whatever the configuration and the duration,
    the call changes nothing at all. *)
Theorem delay_on_every_call
  (PINB : Z) (m0 : mcu) (evs : list event) (m : mcu) (msecs : Z) :
  data m = data (run (setup PINB m0) evs) ->
  0 <= msecs <= 64536 ->
  delay_carry msecs m (delay msecs m)
  /\ state (data (delay msecs m)) = state (data m)
  /\ pinb (data (delay msecs m)) = pinb (data m)
  /\ PORTB (delay msecs m) = PORTB m
  /\ DDRB (delay msecs m) = DDRB m
  /\ GIMSK (delay msecs m) = GIMSK m
  /\ PCMSK (delay msecs m) = PCMSK m
  /\ (forall (m' : mcu) (d : Z),
        timed (state (data m')) = false -> delay d m' = m').
Proof.
  intros Hd Hm.
  destruct (reachable_clock_in_range PINB m0 evs) as (Htm & Hsec & _).
  rewrite <- Hd in Htm, Hsec. unfold SECOND, BOOT_TIMEOUT in *.
  split.
  - destruct (timed (state (data m))) eqn:Ht.
    + apply delay_exact; [exact Ht | lia | lia].
    + unfold delay_carry, clock_kept. rewrite Ht.
      now rewrite delay_untimed.
  - destruct (delay_frame msecs m) as (H1 & H2 & H3 & H4 & H5 & H6).
    repeat (split; [assumption|]).
    intros m' d Ht. now apply delay_untimed.
Qed.

Lemma delay_on_every_call_witness :
  delay_carry BOOT_TICK
    (TOGGLE_PORTB LED (run (setup 0 mcu0) [Interrupt (_BV BTN)]))
    (delay BOOT_TICK
       (TOGGLE_PORTB LED (run (setup 0 mcu0) [Interrupt (_BV BTN)]))).
Proof.
  refine (proj1 (delay_on_every_call 0 mcu0 [Interrupt (_BV BTN)]
                   (TOGGLE_PORTB LED
                      (run (setup 0 mcu0) [Interrupt (_BV BTN)]))
                   BOOT_TICK _ _)).
  - apply data_TOGGLE_PORTB.
  - unfold BOOT_TICK. lia.
Defined.

(** * The port along an execution *)

Lemma testbit_u8_true (x i : Z) :
  Z.testbit (u8 x) i = true -> 0 <= i < 8 /\ Z.testbit x i = true.
Proof.
  intros H. destruct (Z.ltb_spec i 0) as [Hneg|Hpos].
  - now rewrite Z.testbit_neg_r in H.
  - destruct (Z.ltb_spec i 8) as [Hlt|Hge].
    + rewrite testbit_u8 in H by lia. split; [lia|exact H].
    + unfold u8 in H. now rewrite Z.mod_pow2_bits_high in H by lia.
Qed.

Lemma outputs_only_high (portb pin : Z) :
  pin = RPI_PWR \/ pin = LED \/ pin = RPI_OUT ->
  outputs_only portb -> outputs_only (bit_high portb pin).
Proof.
  intros Hpin H i Hi. unfold bit_high in Hi.
  apply testbit_u8_true in Hi. destruct Hi as [Hr Hi].
  rewrite Z.lor_spec, testbit_BV in Hi
    by (destruct Hpin as [-> | [-> | ->]]; vm_compute; discriminate).
  apply orb_true_iff in Hi. destruct Hi as [Hi | Hi]; [now apply H|].
  apply Z.eqb_eq in Hi. now subst i.
Qed.

Lemma outputs_only_low (portb pin : Z) :
  outputs_only portb -> outputs_only (bit_low portb pin).
Proof.
  intros H i Hi. unfold bit_low in Hi.
  apply testbit_u8_true in Hi. destruct Hi as [Hr Hi].
  rewrite Z.land_spec in Hi. apply andb_true_iff in Hi. now apply H.
Qed.

Lemma outputs_only_toggle (portb pin : Z) :
  pin = RPI_PWR \/ pin = LED \/ pin = RPI_OUT ->
  outputs_only portb -> outputs_only (bit_toggle portb pin).
Proof.
  intros Hpin H i Hi. unfold bit_toggle in Hi.
  apply testbit_u8_true in Hi. destruct Hi as [Hr Hi].
  rewrite Z.lxor_spec, testbit_BV in Hi
    by (destruct Hpin as [-> | [-> | ->]]; vm_compute; discriminate).
  destruct (Z.testbit portb i) eqn:Hp; [now apply H|].
  cbn [xorb] in Hi. apply Z.eqb_eq in Hi. now subst i.
Qed.

Create HintDb ports.
#[local] Hint Resolve outputs_only_high outputs_only_low outputs_only_toggle
  : ports.

Lemma state_change_outputs_only (s : state_t) (m : mcu) :
  outputs_only (PORTB m) -> outputs_only (PORTB (state_change s m)).
Proof.
  intros H. rewrite state_change_eq.
  destruct s; cbn [PORTB]; auto 10 with ports.
Qed.

Lemma loop_outputs_only (m : mcu) :
  outputs_only (PORTB m) -> outputs_only (PORTB (loop m)).
Proof.
  intros H. unfold loop. destruct (state (data m)).
  - unfold bork_tick, DELAY. cbn [TOGGLE_PORTB set_PORTB PORTB].
    auto 10 with ports.
  - destruct (period_frame BOOT_TICK m) as [_ Hp].
    destruct (boot_tick_cases m) as [-> | ->].
    + rewrite Hp. auto with ports.
    + apply state_change_outputs_only. rewrite Hp. auto with ports.
  - exact H.
  - destruct (period_frame SHUTDOWN_TICK m) as [_ Hp].
    destruct (shutdown_tick_cases m) as [-> | ->].
    + rewrite Hp. auto with ports.
    + apply state_change_outputs_only. rewrite Hp. auto with ports.
  - exact H.
Qed.

Lemma ISR_outputs_only (PINB : Z) (m : mcu) :
  outputs_only (PORTB m) -> outputs_only (PORTB (ISR PINB m)).
Proof.
  intros H. rewrite ISR_eq. cbv zeta.
  set (m2 := if rising_edge RPI_IN PINB m
             then rpi_in_rose (set_pinb PINB m) else set_pinb PINB m).
  assert (H2 : outputs_only (PORTB m2)).
  { subst m2. destruct (rising_edge RPI_IN PINB m); [|exact H].
    now destruct (rpi_in_rose_frame (set_pinb PINB m)) as (_ & _ & _ & ->). }
  clearbody m2.
  destruct (rising_edge BTN PINB m); [|exact H2].
  unfold btn_rose.
  destruct (state (data m2)); try exact H2;
    now apply state_change_outputs_only.
Qed.

Lemma run_outputs_only (evs : list event) (m : mcu) :
  outputs_only (PORTB m) -> outputs_only (PORTB (run m evs)).
Proof.
  revert m. induction evs as [|e evs IH]; intros m H; [exact H|].
  rewrite run_cons. apply IH.
  destruct e; [now apply loop_outputs_only | now apply ISR_outputs_only].
Qed.

Lemma outputs_only_1 : outputs_only 1.
Proof.
  intros i Hi. left.
  destruct i as [|p|p]; [reflexivity | | ]; cbn in Hi; discriminate Hi.
Qed.

(** X8.  Only the three output pins are ever driven: in every
    configuration reached after [setup], no bit of PORTB is set but those
    of RPI_PWR, LED and RPI_OUT.  The bits of the two input pins stay
    clear, so their pull-ups stay off, and so do the bits of the unused
    pins. *)
Theorem only_outputs_driven (PINB : Z) (m0 : mcu) (evs : list event) :
  outputs_only (PORTB (run (setup PINB m0) evs))
  /\ Z.testbit (PORTB (run (setup PINB m0) evs)) BTN = false
  /\ Z.testbit (PORTB (run (setup PINB m0) evs)) RPI_IN = false.
Proof.
  assert (H : outputs_only (PORTB (run (setup PINB m0) evs))).
  { apply run_outputs_only. rewrite setup_eq. apply outputs_only_1. }
  split; [exact H|].
  split.
  - destruct (Z.testbit _ BTN) eqn:Hb; [|reflexivity].
    destruct (H _ Hb) as [E | [E | E]]; discriminate E.
  - destruct (Z.testbit _ RPI_IN) eqn:Hb; [|reflexivity].
    destruct (H _ Hb) as [E | [E | E]]; discriminate E.
Qed.

Lemma only_outputs_driven_witness :
  LED = RPI_PWR \/ LED = LED \/ LED = RPI_OUT.
Proof.
  apply (proj1 (only_outputs_driven 0 mcu0 [Interrupt (_BV BTN); Tick]) LED).
  vm_compute. reflexivity.
Defined.

(** * The timed states under interrupts *)

Lemma run_snoc (m : mcu) (evs : list event) (e : event) :
  run m (evs ++ [e]) = step (run m evs) e.
Proof. now rewrite run_app. Qed.

(** While the shutdown has not timed out, an execution leaves the machine
    shutting down, with 500 ms on the clock for each tick, whatever the
    interrupts. *)
Lemma shutdown_run (evs : list event) (m : mcu) :
  state (data m) = shutdown_state ->
  0 <= timer (data m) < 1000 -> 0 <= seconds (data m) ->
  elapsed_ms m + 500 * Z.of_nat (count_ticks evs) < 40000 ->
  state (data (run m evs)) = shutdown_state
  /\ elapsed_ms (run m evs) = elapsed_ms m + 500 * Z.of_nat (count_ticks evs)
  /\ 0 <= timer (data (run m evs)) < 1000
  /\ 0 <= seconds (data (run m evs)).
Proof.
  revert m. induction evs as [|e evs IH]; intros m Hs Htm Hsec He.
  - cbn [run fold_left count_ticks]. repeat split; try assumption; lia.
  - rewrite run_cons. destruct e as [|PINB]; cbn [step count_ticks] in *.
    + rewrite loop_shutdown by assumption.
      destruct (shutdown_tick_early m) as (H1 & H2 & H3 & H4);
        try assumption; [lia|].
      destruct (IH (shutdown_tick m)) as (K1 & K2 & K3 & K4);
        try assumption; [lia|].
      repeat split; try assumption; lia.
    + rewrite (ISR_in_shutdown PINB m Hs).
      destruct (IH (set_pinb PINB m)) as (K1 & K2 & K3 & K4);
        try assumption.
      repeat split; try assumption; lia.
Qed.

(** X9.  A shutdown cannot be interrupted or put off: from the entry into
    [shutdown_state], whatever interrupts arrive (button presses and
    host-ready edges are ignored), the machine is shutting down as long as
    fewer than 80 ticks have run, and the 80th tick enters
    [poweroff_state], with the host's supply disabled, the shutdown line
    released and the LED off. *)
Theorem shutdown_runs_its_course (evs : list event) (m : mcu) :
  state (data m) = shutdown_state ->
  timer (data m) = 0 -> seconds (data m) = 0 ->
  ((count_ticks evs < 80)%nat ->
   state (data (run m evs)) = shutdown_state)
  /\ (count_ticks evs = 79%nat ->
      state (data (run m (evs ++ [Tick]))) = poweroff_state
      /\ power_enabled (run m (evs ++ [Tick])) = false
      /\ shutdown_signal (run m (evs ++ [Tick])) = false
      /\ led_on (run m (evs ++ [Tick])) = false).
Proof.
  intros Hs Htm Hsec.
  assert (He0 : elapsed_ms m = 0) by (rewrite elapsed_ms_eq; lia).
  split.
  - intros Hc. apply shutdown_run; try assumption; lia.
  - intros Hc.
    destruct (shutdown_run evs m) as (K1 & K2 & K3 & K4);
      try assumption; try lia.
    rewrite run_snoc. cbn [step].
    rewrite loop_shutdown, shutdown_tick_timeout
      by (try assumption; rewrite ?elapsed_ms_eq in *; lia).
    split; [apply state_change_state|].
    destruct (state_change_entry_action poweroff_state
                (delay SHUTDOWN_TICK (TOGGLE_PORTB LED (run m evs))))
      as (Hpw & Hled & Hsd & _).
    split; [assumption|]. split; assumption.
Qed.

Lemma shutdown_runs_its_course_witness :
  state (data (run (state_change shutdown_state powered_off)
                 [Tick; Interrupt (_BV BTN); Tick])) = shutdown_state.
Proof.
  apply (shutdown_runs_its_course [Tick; Interrupt (_BV BTN); Tick]
           (state_change shutdown_state powered_off));
    try (vm_compute; reflexivity).
  cbn [count_ticks]. lia.
Defined.

(** A step that leaves the machine booting: the clock keeps its range, does
    not go back, and a tick puts 200 ms on it without reaching 40 s. *)
Lemma boot_step_stays (m : mcu) (e : event) :
  state (data m) = boot_state ->
  0 <= timer (data m) < 1000 -> 0 <= seconds (data m) <= 40 ->
  state (data (step m e)) = boot_state ->
  0 <= timer (data (step m e)) < 1000
  /\ 0 <= seconds (data (step m e)) <= 40
  /\ match e with
     | Tick => elapsed_ms (step m e) = elapsed_ms m + 200
               /\ elapsed_ms (step m e) < 40000
     | Interrupt _ => elapsed_ms m <= elapsed_ms (step m e)
     end.
Proof.
  intros Hs Htm Hsec Hs'. destruct e as [|PINB]; cbn [step] in *.
  - rewrite loop_boot in * by assumption.
    destruct (tick_period BOOT_TICK m) as (_ & He & Htm' & Hle);
      [now rewrite Hs | unfold BOOT_TICK; lia | assumption | lia |].
    unfold boot_tick, BOOT_TIMEOUT in *.
    set (m' := delay BOOT_TICK (TOGGLE_PORTB LED m)) in *.
    destruct (40 <=? seconds (data m')) eqn:Hc.
    + rewrite state_change_state in Hs'. discriminate Hs'.
    + apply Z.leb_gt in Hc. rewrite !elapsed_ms_eq in *.
      unfold BOOT_TICK in He. repeat split; lia.
  - rewrite (ISR_in_boot PINB m Hs) in *. rewrite !elapsed_ms_eq.
    destruct (rising_edge RPI_IN PINB m);
      cbn [set_seconds set_pinb data state timer seconds];
      unfold BOOT_TIMEOUT; repeat split; lia.
Qed.

Lemma boot_run_stays (evs : list event) (m : mcu) (n : Z) :
  state (data m) = boot_state ->
  0 <= timer (data m) < 1000 -> 0 <= seconds (data m) <= 40 ->
  0 <= n < 200 -> 200 * n <= elapsed_ms m ->
  stays boot_state m evs = true ->
  n + Z.of_nat (count_ticks evs) < 200.
Proof.
  revert m n. induction evs as [|e evs IH]; intros m n Hs Htm Hsec Hn He Hst.
  - cbn [count_ticks]. lia.
  - cbn [stays] in Hst. apply andb_true_iff in Hst. destruct Hst as [H1 H2].
    apply state_eqb_eq in H1.
    destruct (boot_step_stays m e Hs Htm Hsec H1) as (Htm' & Hsec' & Hcl).
    destruct e as [|PINB]; cbn [count_ticks].
    + destruct Hcl as [Ha Hb].
      assert (IHn : n + 1 + Z.of_nat (count_ticks evs) < 200)
        by (apply (IH (step m Tick)); try assumption; lia).
      lia.
    + apply (IH (step m (Interrupt PINB))); try assumption; lia.
Qed.

(** X10.  Booting never lasts 200 ticks: from a configuration in
    [boot_state] that an execution reaches after [setup], and whatever
    interrupts arrive, an execution that leaves the machine in [boot_state]
    after each of its events has fewer than 200 ticks.  Interrupts can
    shorten the boot (the host-ready edge) and cannot lengthen it. *)
Theorem boot_is_bounded
  (PINB : Z) (m0 : mcu) (before evs : list event) :
  state (data (run (setup PINB m0) before)) = boot_state ->
  stays boot_state (run (setup PINB m0) before) evs = true ->
  (count_ticks evs < 200)%nat.
Proof.
  intros Hs Hst.
  destruct (reachable_clock_in_range PINB m0 before) as (Htm & Hsec & Hb).
  rewrite Hs in Hb. unfold SECOND, BOOT_TIMEOUT in *.
  assert (H : 0 + Z.of_nat (count_ticks evs) < 200).
  { apply (boot_run_stays evs (run (setup PINB m0) before));
      try assumption; try lia.
    rewrite elapsed_ms_eq. lia. }
  lia.
Qed.

Lemma boot_is_bounded_witness :
  (count_ticks [Tick; Interrupt 0; Tick] < 200)%nat.
Proof.
  apply (boot_is_bounded 0 mcu0 [Interrupt (_BV BTN)]
           [Tick; Interrupt 0; Tick]);
    vm_compute; reflexivity.
Defined.

(** While the boot has not timed out and no host-ready edge arrives, an
    execution leaves the machine booting, with 200 ms on the clock for each
    tick and the host lines as they were. *)
Lemma boot_run_silent (evs : list event) (m : mcu) :
  state (data m) = boot_state ->
  0 <= timer (data m) < 1000 -> 0 <= seconds (data m) ->
  host_silent m evs = true ->
  elapsed_ms m + 200 * Z.of_nat (count_ticks evs) < 40000 ->
  state (data (run m evs)) = boot_state
  /\ elapsed_ms (run m evs) = elapsed_ms m + 200 * Z.of_nat (count_ticks evs)
  /\ 0 <= timer (data (run m evs)) < 1000
  /\ 0 <= seconds (data (run m evs))
  /\ power_enabled (run m evs) = power_enabled m
  /\ shutdown_signal (run m evs) = shutdown_signal m.
Proof.
  revert m. induction evs as [|e evs IH]; intros m Hs Htm Hsec Hq He.
  - cbn [run fold_left count_ticks].
    repeat split; try assumption; try reflexivity; lia.
  - rewrite run_cons. cbn [host_silent] in Hq.
    apply andb_true_iff in Hq. destruct Hq as [Hq1 Hq2].
    destruct e as [|PINB]; cbn [step count_ticks] in *.
    + rewrite loop_boot in * by assumption.
      destruct (boot_tick_early m) as (H1 & H2 & H3 & H4 & H5 & H6);
        try assumption; [lia|].
      destruct (IH (boot_tick m)) as (K1 & K2 & K3 & K4 & K5 & K6);
        try assumption; [lia|].
      repeat split; try assumption; try lia; congruence.
    + apply negb_true_iff in Hq1.
      rewrite (ISR_in_boot PINB m Hs), Hq1 in *.
      destruct (IH (set_pinb PINB m)) as (K1 & K2 & K3 & K4 & K5 & K6);
        try assumption.
      repeat split; try assumption; lia.
Qed.

(** X11.  Without a host-ready edge the boot lasts exactly 200 ticks: from
    the entry into [boot_state], whatever interrupts arrive that show no
    rising edge of the host-ready line (button presses are ignored), the
    machine is booting as long as fewer than 200 ticks have run, and the
    200th tick enters [idle_state], the LED on and the host lines as the
    entry into [boot_state] left them. *)
Theorem boot_runs_its_course (evs : list event) (m : mcu) :
  state (data m) = boot_state ->
  timer (data m) = 0 -> seconds (data m) = 0 ->
  host_silent m evs = true ->
  ((count_ticks evs < 200)%nat -> state (data (run m evs)) = boot_state)
  /\ (count_ticks evs = 199%nat ->
      state (data (run m (evs ++ [Tick]))) = idle_state
      /\ led_on (run m (evs ++ [Tick])) = true
      /\ power_enabled (run m (evs ++ [Tick])) = power_enabled m
      /\ shutdown_signal (run m (evs ++ [Tick])) = shutdown_signal m).
Proof.
  intros Hs Htm Hsec Hq.
  assert (He0 : elapsed_ms m = 0) by (rewrite elapsed_ms_eq; lia).
  split.
  - intros Hc. apply boot_run_silent; try assumption; lia.
  - intros Hc.
    destruct (boot_run_silent evs m) as (K1 & K2 & K3 & K4 & K5 & K6);
      try assumption; try lia.
    rewrite run_snoc. cbn [step].
    rewrite loop_boot, boot_tick_timeout
      by (try assumption; rewrite ?elapsed_ms_eq in *; lia).
    destruct (period_frame BOOT_TICK (run m evs)) as [_ Hp].
    split; [apply state_change_state|].
    rewrite state_change_eq.
    unfold led_on, power_enabled, shutdown_signal in *.
    cbn [PORTB]. rewrite Hp, <- K5, <- K6.
    split; [|split]; now pin_levels.
Qed.

Lemma boot_runs_its_course_witness :
  state (data (run booting [Tick; Interrupt 0; Interrupt (_BV BTN); Tick]))
  = boot_state.
Proof.
  apply (boot_runs_its_course [Tick; Interrupt 0; Interrupt (_BV BTN); Tick]
           booting);
    try (vm_compute; reflexivity).
  cbn [count_ticks]. lia.
Defined.

(** The LED along ticks that leave a timed state as it is. *)
Lemma led_over_ticks (k : nat) (m : mcu) :
  timed (state (data m)) = true ->
  (forall j, (j <= k)%nat -> state (data (ticks j m)) = state (data m)) ->
  led_on (ticks k m) = xorb (led_on m) (Nat.odd k).
Proof.
  intros Ht. induction k as [|k IH]; intros Hst.
  - change (ticks 0 m) with m. now destruct (led_on m).
  - rewrite ticks_S.
    assert (Hk : state (data (ticks k m)) = state (data m))
      by (apply Hst; lia).
    assert (HS : state (data (loop (ticks k m))) = state (data (ticks k m)))
      by (rewrite <- ticks_S, Hk; apply Hst; lia).
    destruct (loop_no_transition (ticks k m) HS) as (_ & _ & ->).
    rewrite Hk, Ht, IH by (intros j Hj; apply Hst; lia).
    rewrite Nat.odd_succ, <- Nat.negb_odd.
    now destruct (led_on m), (Nat.odd k).
Qed.

(** X12.  The LED blinks at the pace of the ticks: from the entry into
    [boot_state], before the 200th tick, and from the entry into
    [shutdown_state], before the 80th, the LED has changed level once per
    tick; the entry switches it off, so it is on after an odd number of
    ticks and off after an even number. *)
Theorem led_blinks (k : nat) (m : mcu) :
  timer (data m) = 0 -> seconds (data m) = 0 ->
  (state (data m) = boot_state /\ (k < 200)%nat)
  \/ (state (data m) = shutdown_state /\ (k < 80)%nat) ->
  led_on (ticks k m) = xorb (led_on m) (Nat.odd k).
Proof.
  intros Htm Hsec [[Hs Hk] | [Hs Hk]].
  - apply led_over_ticks; [now rewrite Hs|].
    intros j Hj. rewrite Hs.
    apply boot_ticks_early; rewrite ?elapsed_ms_eq; try assumption; lia.
  - apply led_over_ticks; [now rewrite Hs|].
    intros j Hj. rewrite Hs.
    apply shutdown_ticks_early; rewrite ?elapsed_ms_eq; try assumption; lia.
Qed.

Lemma led_blinks_witness :
  led_on (ticks 3 booting) = xorb (led_on booting) (Nat.odd 3).
Proof.
  apply (led_blinks 3 booting); try (vm_compute; reflexivity).
  left. split; [vm_compute; reflexivity | lia].
Defined.

(** X13.  [delay] loses no time: in the timed states, and as long as the
    counters do not wrap, the clock read in milliseconds (1000 for each
    second, plus [timer]) advances by exactly the duration, whatever the
    duration.  As a call carries at most one second, [timer] is below 1000
    afterwards exactly when it was so far below 2000 that one carry
    suffices. *)
Theorem delay_conserves_time (msecs : Z) (m : mcu) :
  timed (state (data m)) = true ->
  0 <= timer (data m) + msecs < 65536 ->
  0 <= seconds (data m) < 255 ->
  elapsed_ms (delay msecs m) = elapsed_ms m + msecs
  /\ (timer (data (delay msecs m)) < SECOND
      <-> timer (data m) + msecs < 2 * SECOND).
Proof.
  intros Ht Hsum Hsec.
  pose proof (delay_exact msecs m Ht Hsum Hsec) as Hc.
  unfold delay_carry in Hc. rewrite Ht in Hc.
  rewrite !elapsed_ms_eq. unfold SECOND in *.
  destruct (1000 <=? timer (data m) + msecs) eqn:Hcmp;
    destruct Hc as [-> ->];
    [apply Z.leb_le in Hcmp | apply Z.leb_gt in Hcmp]; lia.
Qed.

Lemma delay_conserves_time_witness :
  elapsed_ms (delay 2500 booting19) = elapsed_ms booting19 + 2500.
Proof.
  destruct booting19_clock as (Hs & Htm & Hsec).
  apply (delay_conserves_time 2500 booting19);
    [now rewrite Hs | rewrite Htm; lia | rewrite Hsec; lia].
Defined.

(** * A transition interrupted *)

(** The interrupted call, statement by statement. *)
Lemma prun_state_change_interrupted (PINB : Z) (m : mcu) (k : prog) :
  prun (m, state_change_p poweroff_state k)
    [Main; Main; Irq PINB; Main; Main; Main]
  = (LOW_PORTB RPI_OUT
       (LOW_PORTB LED
          (HIGH_PORTB RPI_PWR (ISR PINB (set_state poweroff_state m)))), k).
Proof. reflexivity. Qed.

(** The configuration the interrupted call leaves, and the boot that
    follows; [n] is the number of boot ticks before the last. *)
Lemma interrupted_then_boot (PINB : Z) (m : mcu) (n : nat) :
  rising_edge BTN PINB m = true ->
  n = 199%nat ->
  let m' := LOW_PORTB RPI_OUT
              (LOW_PORTB LED
                 (HIGH_PORTB RPI_PWR
                    (ISR PINB (set_state poweroff_state m)))) in
  state (data m') = boot_state
  /\ timer (data m') = 0
  /\ seconds (data m') = 0
  /\ power_enabled m' = false
  /\ state (data (ticks (S n) m')) = idle_state
  /\ power_enabled (ticks (S n) m') = false.
Proof.
  intros Hb Hn. cbv zeta.
  rewrite (press_in_poweroff PINB (set_state poweroff_state m))
    by (reflexivity || exact Hb).
  set (m1 := set_pinb PINB (set_state poweroff_state m)).
  set (m' := LOW_PORTB RPI_OUT
               (LOW_PORTB LED (HIGH_PORTB RPI_PWR
                                 (state_change boot_state m1)))).
  assert (Hs : state (data m') = boot_state)
    by (subst m'; rewrite state_change_eq; reflexivity).
  assert (Htm : timer (data m') = 0)
    by (subst m'; rewrite state_change_eq; reflexivity).
  assert (Hsec : seconds (data m') = 0)
    by (subst m'; rewrite state_change_eq; reflexivity).
  assert (Hpw : power_enabled m' = false)
    by (subst m'; rewrite state_change_eq; now pin_levels).
  clearbody m'.
  split; [exact Hs|]. split; [exact Htm|].
  split; [exact Hsec|]. split; [exact Hpw|].
  destruct (boot_ticks_early n m') as (Hs' & _ & _ & _ & Hpw' & _);
    rewrite ?elapsed_ms_eq; try assumption; try lia.
  destruct (boot_ticks_timeout n m') as (Heq & _);
    rewrite ?elapsed_ms_eq; try assumption; try lia.
  rewrite Heq. split; [apply state_change_state|].
  destruct (period_frame BOOT_TICK (ticks n m')) as [_ Hp].
  rewrite state_change_eq. unfold power_enabled in *. cbn [PORTB].
  rewrite Hp, testbit_bit_high, testbit_bit_toggle
    by (unfold LED, RPI_PWR, DDB0, DDB1; lia).
  change (LED =? RPI_PWR) with false.
  rewrite orb_false_r, xorb_false_r, Hpw'. exact Hpw.
Qed.

(** X14.  [state_change] is not safe against the handler.  In the call
    [state_change(poweroff_state)] that ends a shutdown, let the interrupt
    of a button press land after [data.state] has been written and the
    [switch] has been entered, before the writes to the port.  The handler
    finds [poweroff_state] and enters [boot_state], which enables the
    host's supply; the interrupted call then goes on with the entry action
    of [poweroff_state] and disables the supply.  The machine is left in
    [boot_state] with the clock at zero and the host's supply disabled; it
    boots for 200 ticks and enters [idle_state] with the supply still
    disabled. *)
Theorem state_change_interrupted (PINB : Z) (m : mcu) (k : prog) :
  rising_edge BTN PINB m = true ->
  let c := prun (m, state_change_p poweroff_state k)
             [Main; Main; Irq PINB; Main; Main; Main] in
  snd c = k
  /\ state (data (fst c)) = boot_state
  /\ timer (data (fst c)) = 0
  /\ seconds (data (fst c)) = 0
  /\ power_enabled (fst c) = false
  /\ state (data (ticks 200 (fst c))) = idle_state
  /\ power_enabled (ticks 200 (fst c)) = false.
Proof.
  intros Hb. cbv zeta. rewrite prun_state_change_interrupted.
  split; [reflexivity|].
  exact (interrupted_then_boot PINB m 199 Hb eq_refl).
Qed.

Lemma state_change_interrupted_witness :
  power_enabled
    (fst (prun (powered_off, state_change_p poweroff_state loop_p)
            [Main; Main; Irq (_BV BTN); Main; Main; Main])) = false.
Proof.
  destruct (state_change_interrupted (_BV BTN) powered_off loop_p)
    as (_ & _ & _ & _ & H & _);
    [vm_compute; reflexivity | exact H].
Defined.
